(** * engine/row.py: result rows (BaseRow, Row, RowMapping)

    A shallow embedding of the pure-Python [BaseRow] of
    [lib/sqlalchemy/engine/row.py] together with the parts of [Row] and
    [RowMapping] layered on it: construction with value processors,
    positional and keyed access under the four key styles, comparison and
    hashing, the pickling hooks and [_filter_on_values].

    Python exceptions are values of [exn]; a computation that may raise
    returns a [result]; the accessors that may also emit the legacy
    deprecation warning run in the monad [M], which threads the list of
    warnings emitted so far. *)

From stdpp Require Import base numbers option list strings countable gmap.

Set Warnings "-register-all".
Open Scope Z_scope.

(** ** Python objects *)

(** The three parts of a [slice(start, stop, step)] object; [None] parts
    are [None] here. *)
Record pyslice := Slice {
  slice_start : option Z;
  slice_stop : option Z;
  slice_step : option Z
}.

(** Objects used as keys of a row.  [KInt] and [KBool] are the keys whose
    class has [int] in its [__mro__].  [KNum z] is a number that compares
    and hashes equal to the integer [z] although its class does not derive
    from [int] and has no [__index__] (as [Decimal(1)] does for [1]).
    [KObj] is a column object, compared by identity.  [KSlice] and [KList]
    are unhashable. *)
Inductive key :=
  | KInt (z : Z)
  | KBool (b : bool)
  | KNum (z : Z)
  | KStr (s : string)
  | KObj (id : positive)
  | KSlice (s : pyslice)
  | KList (l : list Z).

(** Values stored in a row and operands of comparisons. *)
Inductive pyval :=
  | VNone
  | VBool (b : bool)
  | VInt (z : Z)
  | VStr (s : string)
  | VTuple (l : list pyval)
  | VList (l : list pyval).

(** ** Exceptions *)

Inductive exn_class :=
  | IndexError
  | TypeError
  | ValueError
  | KeyError
  | NoSuchColumnError
  | InvalidRequestError
  | AttributeError.

(** [args[0]] of an exception. *)
Inductive exn_arg :=
  | AKey (k : key)
  | AText (s : string).

Record exn := Exn { exn_cls : exn_class; exn_arg0 : exn_arg }.

(** [isinstance(e, KeyError)]: [NoSuchColumnError] derives from
    [KeyError]; [IndexError] is a [LookupError] but not a [KeyError]. *)
Definition isinstance_KeyError (e : exn) : bool :=
  match exn_cls e with
  | KeyError | NoSuchColumnError => true
  | _ => false
  end.

Definition isinstance_TypeError (e : exn) : bool :=
  match exn_cls e with
  | TypeError => true
  | _ => false
  end.

Inductive result (A : Type) :=
  | Return (a : A)
  | Raise (e : exn).
Arguments Return {A} a.
Arguments Raise {A} e.

Definition result_bind {A B} (r : result A) (f : A -> result B) : result B :=
  match r with
  | Return a => f a
  | Raise e => Raise e
  end.

(** ** Warnings and the accessor monad *)

(** The only notice the row itself asks for is the parent's
    [_warn_for_nonint(key)]. *)
Inductive warning :=
  | WarnNonint (k : key).

Definition M (A : Type) : Type := list warning -> result A * list warning.

Definition ret {A} (a : A) : M A := fun w => (Return a, w).
Definition raise {A} (e : exn) : M A := fun w => (Raise e, w).
Definition warn (x : warning) : M unit := fun w => (Return tt, w ++ [x]).
Definition lift {A} (r : result A) : M A := fun w => (r, w).

Definition bind {A B} (m : M A) (f : A -> M B) : M B :=
  fun w =>
    match m w with
    | (Return a, w') => f a w'
    | (Raise e, w') => (Raise e, w')
    end.

(** [try m except C as e: h e], where [catches] says whether the raised
    exception is an instance of [C]. *)
Definition try_except {A} (m : M A) (catches : exn -> bool) (h : exn -> M A) : M A :=
  fun w =>
    match m w with
    | (Return a, w') => (Return a, w')
    | (Raise e, w') => if catches e then h e w' else (Raise e, w')
    end.

Notation "x <- c1 ;; c2" := (bind c1 (fun x => c2))
  (at level 100, c1 at next level, right associativity).
Notation "c1 ;;; c2" := (bind c1 (fun _ => c2))
  (at level 100, right associativity).

(** ** Key styles *)

(** [KEY_INTEGER_ONLY = 0], [KEY_OBJECTS_ONLY = 1],
    [KEY_OBJECTS_BUT_WARN = 2], [KEY_OBJECTS_NO_WARN = 3]. *)
Inductive key_style :=
  | KEY_INTEGER_ONLY
  | KEY_OBJECTS_ONLY
  | KEY_OBJECTS_BUT_WARN
  | KEY_OBJECTS_NO_WARN.

Definition key_style_eqb (a b : key_style) : bool :=
  match a, b with
  | KEY_INTEGER_ONLY, KEY_INTEGER_ONLY
  | KEY_OBJECTS_ONLY, KEY_OBJECTS_ONLY
  | KEY_OBJECTS_BUT_WARN, KEY_OBJECTS_BUT_WARN
  | KEY_OBJECTS_NO_WARN, KEY_OBJECTS_NO_WARN => true
  | _, _ => false
  end.

(** ** The key map *)

(** Hashable keys up to [==]: [True], [1] and a [KNum 1] hash and compare
    alike, so they address the same dictionary entry. *)
Inductive hkey :=
  | HInt (z : Z)
  | HStr (s : string)
  | HObj (id : positive).

Global Instance hkey_eq_dec : EqDecision hkey.
Proof. solve_decision. Defined.

Definition hkey_enc (h : hkey) : Z + (string + positive) :=
  match h with
  | HInt z => inl z
  | HStr s => inr (inl s)
  | HObj p => inr (inr p)
  end.

Definition hkey_dec (x : Z + (string + positive)) : hkey :=
  match x with
  | inl z => HInt z
  | inr (inl s) => HStr s
  | inr (inr p) => HObj p
  end.

Global Instance hkey_countable : Countable hkey.
Proof.
  apply (inj_countable' hkey_enc hkey_dec).
  intros []; reflexivity.
Defined.

(** [hash(key)] as far as dictionary lookup needs it: the entry addressed,
    or [None] when the key is unhashable. *)
Definition hash_key (k : key) : option hkey :=
  match k with
  | KInt z => Some (HInt z)
  | KBool b => Some (HInt (Z.b2z b))
  | KNum z => Some (HInt z)
  | KStr s => Some (HStr s)
  | KObj p => Some (HObj p)
  | KSlice _ => None
  | KList _ => None
  end.

(** A key map record.  [MD_INDEX = 0] is the slot of the position in the
    row, [None] for a name shared by several columns; [md_lookup_key] is
    the key the record was filed under. *)
Record rec := Rec {
  MD_INDEX : option Z;
  md_lookup_key : key
}.

(** [d[key]] on a dictionary. *)
Definition dict_getitem (d : gmap hkey rec) (k : key) : result rec :=
  match hash_key k with
  | None => Raise (Exn TypeError (AText "unhashable type"))
  | Some h =>
      match d !! h with
      | Some r => Return r
      | None => Raise (Exn KeyError (AKey k))
      end
  end.

(** ** Tuples *)

(** [int in key.__class__.__mro__] *)
Definition int_in_mro (k : key) : bool :=
  match k with
  | KInt _ | KBool _ => true
  | _ => false
  end.

(** [isinstance(key, slice)] *)
Definition isinstance_slice (k : key) : bool :=
  match k with
  | KSlice _ => true
  | _ => false
  end.

(** [t[i]] for an integer [i]: negative positions count from the end. *)
Definition tuple_getitem (t : list pyval) (i : Z) : result pyval :=
  let n := Z.of_nat (length t) in
  let j := if i <? 0 then i + n else i in
  if (j <? 0) || (n <=? j) then
    Raise (Exn IndexError (AText "tuple index out of range"))
  else
    match t !! Z.to_nat j with
    | Some v => Return v
    | None => Raise (Exn IndexError (AText "tuple index out of range"))
    end.

(** [slice.indices(len)] with the step already known to be non-zero. *)
Definition adjust_bound (len step : Z) (lo hi : Z) (b : option Z) (dflt : Z) : Z :=
  match b with
  | None => dflt
  | Some x =>
      let x := if x <? 0 then x + len else x in
      if x <? 0 then lo
      else if len <=? x then hi
      else x
  end.

Definition slice_indices (len : Z) (s : pyslice) (step : Z) : Z * Z :=
  let lo := if step <? 0 then -1 else 0 in
  let hi := if step <? 0 then len - 1 else len in
  (adjust_bound len step lo hi (slice_start s) (if step <? 0 then len - 1 else 0),
   adjust_bound len step lo hi (slice_stop s) (if step <? 0 then -1 else len)).

Definition slice_length (start stop step : Z) : Z :=
  if step <? 0 then
    if stop <? start then (start - stop - 1) / (- step) + 1 else 0
  else
    if start <? stop then (stop - start - 1) / step + 1 else 0.

Fixpoint slice_items (t : list pyval) (start step : Z) (count : nat) : list pyval :=
  match count with
  | O => []
  | S c =>
      match t !! Z.to_nat start with
      | Some v => v :: slice_items t (start + step) step c
      | None => []
      end
  end.

(** [t[s]] for a slice [s]. *)
Definition tuple_getslice (t : list pyval) (s : pyslice) : result (list pyval) :=
  let step := default 1 (slice_step s) in
  if step =? 0 then Raise (Exn ValueError (AText "slice step cannot be zero"))
  else
    let len := Z.of_nat (length t) in
    let '(start, stop) := slice_indices len s step in
    Return (slice_items t start step (Z.to_nat (slice_length start stop step))).

(** [t[key]] for any key: integers and slices are accepted. *)
Definition tuple_subscript (t : list pyval) (k : key) : result pyval :=
  match k with
  | KInt z => tuple_getitem t z
  | KBool b => tuple_getitem t (Z.b2z b)
  | KSlice s => result_bind (tuple_getslice t s) (fun l => Return (VTuple l))
  | _ => Raise (Exn TypeError (AText "tuple indices must be integers or slices"))
  end.

(** A byte of the form [10xxxxxx] continues a character begun before
    it in the UTF-8 bytes of a string. *)
Definition is_continuation (c : Ascii.ascii) : bool :=
  match c with
  | Ascii.Ascii _ _ _ _ _ _ b6 b7 => b7 && negb b6
  end.

(** The characters of a string, one string of length one per code point:
    what iterating a [str] yields. *)
Fixpoint str_chars (s : string) : list string :=
  match s with
  | EmptyString => []
  | String c rest =>
      match str_chars rest with
      | (String d g') :: gs =>
          if is_continuation d
          then String c (String d g') :: gs
          else String c EmptyString :: String d g' :: gs
      | gs => String c EmptyString :: gs
      end
  end.

(** [tuple(x)] *)
Definition py_tuple (x : pyval) : result pyval :=
  match x with
  | VTuple l | VList l => Return (VTuple l)
  | VStr s => Return (VTuple (VStr <$> str_chars s))
  | _ => Raise (Exn TypeError (AText "object is not iterable"))
  end.

(** [a == b] on values: [bool] is a subclass of [int], so [True == 1];
    a tuple never equals a list. *)
Fixpoint py_eq (a b : pyval) : bool :=
  match a, b with
  | VNone, VNone => true
  | VBool x, VBool y => Z.b2z x =? Z.b2z y
  | VBool x, VInt y => Z.b2z x =? y
  | VInt x, VBool y => x =? Z.b2z y
  | VInt x, VInt y => x =? y
  | VStr x, VStr y => String.eqb x y
  | VTuple l, VTuple l' =>
      (fix go (l l' : list pyval) : bool :=
         match l, l' with
         | [], [] => true
         | x :: l, y :: l' => py_eq x y && go l l'
         | _, _ => false
         end) l l'
  | VList l, VList l' =>
      (fix go (l l' : list pyval) : bool :=
         match l, l' with
         | [], [] => true
         | x :: l, y :: l' => py_eq x y && go l l'
         | _, _ => false
         end) l l'
  | _, _ => false
  end.

Definition operator_eq (a b : pyval) : result pyval := Return (VBool (py_eq a b)).
Definition operator_ne (a b : pyval) : result pyval := Return (VBool (negb (py_eq a b))).

(** [mdindex != key], for an integer [mdindex]. *)
Definition int_ne_key (mdindex : Z) (k : key) : bool :=
  match k with
  | KInt z | KNum z => negb (mdindex =? z)
  | KBool b => negb (mdindex =? Z.b2z b)
  | KStr _ | KObj _ | KSlice _ | KList _ => true
  end.

(** [t[mdindex]] where [mdindex] comes out of a key map record. *)
Definition tuple_getitem_md (t : list pyval) (mdindex : option Z) : result pyval :=
  match mdindex with
  | Some i => tuple_getitem t i
  | None => Raise (Exn TypeError (AText "tuple indices must be integers or slices"))
  end.

(** ** The parent of a row *)

Module ResultMetaData.

(** The result-set descriptor a row points to: the ordered column names
    ([None] for an unnamed column), the key map and the resolver asked
    when the key map has no entry. *)
Record t := Make {
  keys : list (option string);
  _keymap : gmap hkey rec;
  _key_fallback : key -> exn -> result rec
}.

(** Modelled from the spec: the parent's callback for a non-integer key
    under [KEY_INTEGER_ONLY] is not part of this module; it always
    fails, with a type-mismatch-class error. *)
Definition _raise_for_nonint (self : t) (k : key) : M unit :=
  raise (Exn TypeError (AKey k)).

(** Modelled from the spec: the parent's callback for a name shared by
    several columns is not part of this module; it always fails, with an
    error of its own class that names the key of the record. *)
Definition _raise_for_ambiguous_column_name (self : t) (r : rec) : M unit :=
  raise (Exn InvalidRequestError (AKey (md_lookup_key r))).

(** Modelled from the spec: the parent's legacy notice for a non-integer
    key is not part of this module; it emits a warning and returns. *)
Definition _warn_for_nonint (self : t) (k : key) : M unit :=
  warn (WarnNonint k).

End ResultMetaData.

(** ** BaseRow *)

(** [__slots__ = ("_parent", "_data", "_keymap", "_key_style")] *)
Record BaseRow := MkRow {
  _parent : ResultMetaData.t;
  _data : list pyval;
  _keymap : gmap hkey rec;
  _key_style : key_style
}.

(** A value processor; it may raise. *)
Definition processor := pyval -> result pyval.

(** [proc(value) if proc else value] *)
Definition run_processor (proc : option processor) (value : pyval) : result pyval :=
  match proc with
  | Some f => f value
  | None => Return value
  end.

(** The list comprehension over [zip(processors, data)], left to right;
    [zip] stops at the shorter of the two. *)
Fixpoint apply_processors (processors : list (option processor)) (data : list pyval)
  : result (list pyval) :=
  match processors, data with
  | proc :: processors', value :: data' =>
      result_bind (run_processor proc value)
        (fun x => result_bind (apply_processors processors' data')
                    (fun rest => Return (x :: rest)))
  | _, _ => Return []
  end.

(** [if processors:] is false for [None] and for an empty sequence. *)
Definition truthy (processors : option (list (option processor))) : bool :=
  match processors with
  | Some (_ :: _) => true
  | _ => false
  end.

Definition __init__ (parent : ResultMetaData.t)
    (processors : option (list (option processor)))
    (keymap : gmap hkey rec) (ks : key_style) (data : list pyval) : result BaseRow :=
  result_bind
    (if truthy processors then apply_processors (default [] processors) data
     else Return data)
    (fun d => Return (MkRow parent d keymap ks)).

Definition _filter_on_values (self : BaseRow) (filters : option (list (option processor)))
  : result BaseRow :=
  __init__ (_parent self) filters (_keymap self) (_key_style self) (_data self).

Definition __iter__ (self : BaseRow) : list pyval := _data self.

Definition __len__ (self : BaseRow) : Z := Z.of_nat (length (_data self)).

(** [hash(self._data)]; the builtin [hash] is a parameter. *)
Definition __hash__ (hash : pyval -> result Z) (self : BaseRow) : result Z :=
  hash (VTuple (_data self)).

Definition _get_by_int_impl (self : BaseRow) (k : key) : result pyval :=
  tuple_subscript (_data self) k.

(** The tail shared by the two branches of [_get_by_key_impl] that bind
    [rec]. *)
Definition by_key_tail (self : BaseRow) (k : key) (r : rec) : M pyval :=
  let mdindex := MD_INDEX r in
  (match mdindex with
   | None => ResultMetaData._raise_for_ambiguous_column_name (_parent self) r
   | Some i =>
       if key_style_eqb (_key_style self) KEY_OBJECTS_BUT_WARN && int_ne_key i k
       then ResultMetaData._warn_for_nonint (_parent self) k
       else ret tt
   end) ;;;
  lift (tuple_getitem_md (_data self) mdindex).

Definition _get_by_key_impl (self : BaseRow) (k : key) : M pyval :=
  if int_in_mro k then lift (tuple_subscript (_data self) k)
  else
    (if key_style_eqb (_key_style self) KEY_INTEGER_ONLY
     then ResultMetaData._raise_for_nonint (_parent self) k
     else ret tt) ;;;
    match dict_getitem (_keymap self) k with
    | Return r => by_key_tail self k r
    | Raise ke =>
        if isinstance_KeyError ke then
          r <- lift (ResultMetaData._key_fallback (_parent self) k ke) ;;
          by_key_tail self k r
        else if isinstance_TypeError ke then
          if isinstance_slice k
          then lift (result_bind (tuple_subscript (_data self) k) py_tuple)
          else raise ke
        else raise ke
    end.

Definition __getitem__ := _get_by_key_impl.

Definition _get_by_key_impl_mapping (self : BaseRow) (k : key) : M pyval :=
  r <- match dict_getitem (_keymap self) k with
       | Return r => ret r
       | Raise ke =>
           if isinstance_KeyError ke
           then lift (ResultMetaData._key_fallback (_parent self) k ke)
           else raise ke
       end ;;
  let mdindex := MD_INDEX r in
  (match mdindex with
   | None => ResultMetaData._raise_for_ambiguous_column_name (_parent self) r
   | Some _ =>
       if key_style_eqb (_key_style self) KEY_OBJECTS_ONLY && int_in_mro k
       then raise (Exn KeyError (AKey k))
       else ret tt
   end) ;;;
  lift (tuple_getitem_md (_data self) mdindex).

Definition __getattr__ (self : BaseRow) (name : string) : M pyval :=
  try_except (_get_by_key_impl_mapping self (KStr name))
    isinstance_KeyError
    (fun e => raise (Exn AttributeError (exn_arg0 e))).

(** ** Row *)

(** The other operand of a comparison: a row, or any other object. *)
Inductive operand :=
  | ORow (r : BaseRow)
  | OVal (v : pyval).

Definition _op (self : BaseRow) (other : operand) (op : pyval -> pyval -> result pyval)
  : result pyval :=
  match other with
  | ORow r => op (VTuple (__iter__ self)) (VTuple (__iter__ r))
  | OVal v => op (VTuple (__iter__ self)) v
  end.

Definition __eq__ (self : BaseRow) (other : operand) : result pyval :=
  _op self other operator_eq.

Definition __ne__ (self : BaseRow) (other : operand) : result pyval :=
  _op self other operator_ne.

(** [RowMapping._default_key_style] *)
Definition RowMapping_default_key_style : key_style := KEY_OBJECTS_ONLY.

Definition _mapping (self : BaseRow) : result BaseRow :=
  __init__ (_parent self) None (_keymap self) RowMapping_default_key_style (_data self).

(** [RowMapping.__getitem__ = BaseRow._get_by_key_impl_mapping] *)
Definition RowMapping__getitem__ := _get_by_key_impl_mapping.

(** *** Pickling *)

(** What a slot of the state dictionary holds. *)
Inductive slot :=
  | SParent (p : ResultMetaData.t)
  | SData (d : list pyval)
  | SKeyStyle (ks : key_style).

Definition __getstate__ (self : BaseRow) : gmap string slot :=
  <["_parent" := SParent (_parent self)]>
    (<["_data" := SData (_data self)]>
       (<["_key_style" := SKeyStyle (_key_style self)]> ∅)).

(** [state[name]] *)
Definition state_getitem (state : gmap string slot) (name : string) : result slot :=
  match state !! name with
  | Some s => Return s
  | None => Raise (Exn KeyError (AKey (KStr name)))
  end.

(** [parent._keymap], for whatever the state holds under [_parent]: an
    object that is not a result metadata has no such attribute. *)
Definition parent_keymap (sp : slot) : result (gmap hkey rec) :=
  match sp with
  | SParent parent => Return (ResultMetaData._keymap parent)
  | _ => Raise (Exn AttributeError (AText "_keymap"))
  end.

(** [__setstate__] fills the four slots of a fresh object, in the order
    of the source: [state["_parent"]], [state["_data"]],
    [parent._keymap], [state["_key_style"]].  The slots are typed here,
    so a state dictionary holding another kind of object under [_data] or
    [_key_style], which [__getstate__] never produces, is refused. *)
Definition __setstate__ (state : gmap string slot) : result BaseRow :=
  result_bind (state_getitem state "_parent") (fun sp =>
  result_bind (state_getitem state "_data") (fun sd =>
  result_bind (parent_keymap sp) (fun km =>
  result_bind (state_getitem state "_key_style") (fun sk =>
  match sp, sd, sk with
  | SParent parent, SData d, SKeyStyle ks => Return (MkRow parent d km ks)
  | _, _, _ => Raise (Exn TypeError (AText "ill-typed state"))
  end)))).

(** [obj = cls.__new__(cls); obj.__setstate__(state); return obj] *)
Definition rowproxy_reconstructor (state : gmap string slot) : result BaseRow :=
  __setstate__ state.

(** [__reduce__] names the reconstructor and hands it [__getstate__()];
    the pair is represented by the reconstructor's argument. *)
Definition __reduce__ (self : BaseRow) : gmap string slot := __getstate__ self.

(** ** Ordering *)

(** The six rich comparisons. *)
Inductive cmp_op :=
  | Py_LT
  | Py_LE
  | Py_EQ
  | Py_NE
  | Py_GT
  | Py_GE.

(** The comparison seen from the other operand. *)
Definition cmp_swap (op : cmp_op) : cmp_op :=
  match op with
  | Py_LT => Py_GT
  | Py_LE => Py_GE
  | Py_EQ => Py_EQ
  | Py_NE => Py_NE
  | Py_GT => Py_LT
  | Py_GE => Py_LE
  end.

Definition cmp_Z (op : cmp_op) (x y : Z) : bool :=
  match op with
  | Py_LT => x <? y
  | Py_LE => x <=? y
  | Py_EQ => x =? y
  | Py_NE => negb (x =? y)
  | Py_GT => y <? x
  | Py_GE => y <=? x
  end.

(** Strings compare by code point, which for their bytes is the order
    of [String.compare]. *)
Definition cmp_str (op : cmp_op) (x y : string) : bool :=
  match op, String.compare x y with
  | Py_LT, Lt | Py_LE, (Lt | Eq) | Py_EQ, Eq => true
  | Py_NE, (Lt | Gt) | Py_GT, Gt | Py_GE, (Gt | Eq) => true
  | _, _ => false
  end.

(** [a op b] on values.  Sequences of one kind compare by the first pair
    of items that are not [==], and by length when one is a prefix of the
    other; an ordering between values of different kinds, or with
    [None], is a [TypeError]. *)
Fixpoint py_richcompare (op : cmp_op) (a b : pyval) : result bool :=
  match op with
  | Py_EQ => Return (py_eq a b)
  | Py_NE => Return (negb (py_eq a b))
  | _ =>
      match a, b with
      | VBool x, VBool y => Return (cmp_Z op (Z.b2z x) (Z.b2z y))
      | VBool x, VInt y => Return (cmp_Z op (Z.b2z x) y)
      | VInt x, VBool y => Return (cmp_Z op x (Z.b2z y))
      | VInt x, VInt y => Return (cmp_Z op x y)
      | VStr x, VStr y => Return (cmp_str op x y)
      | VTuple l, VTuple l' =>
          (fix go (l l' : list pyval) : result bool :=
             match l, l' with
             | x :: l0, y :: l0' =>
                 if py_eq x y then go l0 l0' else py_richcompare op x y
             | _, _ => Return (cmp_Z op (Z.of_nat (length l)) (Z.of_nat (length l')))
             end) l l'
      | VList l, VList l' =>
          (fix go (l l' : list pyval) : result bool :=
             match l, l' with
             | x :: l0, y :: l0' =>
                 if py_eq x y then go l0 l0' else py_richcompare op x y
             | _, _ => Return (cmp_Z op (Z.of_nat (length l)) (Z.of_nat (length l')))
             end) l l'
      | _, _ => Raise (Exn TypeError (AText "ordering not supported between these instances"))
      end
  end.

Definition operator_cmp (op : cmp_op) (a b : pyval) : result pyval :=
  result_bind (py_richcompare op a b) (fun r => Return (VBool r)).

Definition operator_lt := operator_cmp Py_LT.
Definition operator_le := operator_cmp Py_LE.
Definition operator_ge := operator_cmp Py_GE.
Definition operator_gt := operator_cmp Py_GT.

Definition __lt__ (self : BaseRow) (other : operand) : result pyval :=
  _op self other operator_lt.

Definition __le__ (self : BaseRow) (other : operand) : result pyval :=
  _op self other operator_le.

Definition __ge__ (self : BaseRow) (other : operand) : result pyval :=
  _op self other operator_ge.

Definition __gt__ (self : BaseRow) (other : operand) : result pyval :=
  _op self other operator_gt.

(** ** Containment, fields and the sequence methods *)

(** [x in t]: some item of [t] is [==] to [x]. *)
Definition py_in (x : pyval) (t : list pyval) : bool :=
  existsb (fun item => py_eq item x) t.

(** [Row.__contains__] *)
Definition Row__contains__ (self : BaseRow) (x : pyval) : bool :=
  py_in x (_data self).

(** [tuple([k for k in self._parent.keys if k is not None])] *)
Definition _fields (self : BaseRow) : list string :=
  omap (fun k : option string => k) (ResultMetaData.keys (_parent self)).

(** [BaseRow._values_impl]: [list(self)] *)
Definition _values_impl (self : BaseRow) : list pyval := __iter__ self.

(** [collections.abc.Sequence.count]:
    [sum(1 for v in self if v is value or v == value)] *)
Definition Sequence_count (self : BaseRow) (value : pyval) : Z :=
  Z.of_nat (length (filter (fun v => py_eq v value = true) (__iter__ self))).

(** What a special name accessor hands out: the value of the column of
    that name, or the sequence method of that name bound to the row. *)
Inductive special :=
  | SpecialValue (v : pyval)
  | SpecialMethod (name : string).

(** [_special_name_accessor(name)]; the parent's [_has_key] is not part
    of this module and is a parameter. *)
Definition _special_name_accessor (_has_key : ResultMetaData.t -> key -> bool)
    (name : string) (self : BaseRow) : M special :=
  if _has_key (_parent self) (KStr name)
  then v <- __getattr__ self name ;; ret (SpecialValue v)
  else ret (SpecialMethod name).

(** ** RowMapping and its views *)

(** [(k for k in self._parent.keys if k is not None)] *)
Definition RowMapping__iter__ (self : BaseRow) : list string :=
  omap (fun k : option string => k) (ResultMetaData.keys (_parent self)).

Definition RowMapping__len__ (self : BaseRow) : Z := Z.of_nat (length (_data self)).

(** [RowMapping._values_impl]: [list(self._data)] *)
Definition RowMapping_values_impl (self : BaseRow) : list pyval := _data self.

(** [list(x)] *)
Definition py_list (x : pyval) : result pyval :=
  match x with
  | VTuple l | VList l => Return (VList l)
  | VStr s => Return (VList (VStr <$> str_chars s))
  | _ => Raise (Exn TypeError (AText "object is not iterable"))
  end.

Module ROMappingView.

(** [__slots__ = ("_mapping", "_items")] *)
Record t := Make {
  _mapping : BaseRow;
  _items : list pyval
}.

Definition __len__ (self : t) : Z := Z.of_nat (length (_items self)).

Definition __iter__ (self : t) : list pyval := _items self.

Definition __contains__ (self : t) (item : pyval) : bool := py_in item (_items self).

(** [list(other) == list(self)] *)
Definition __eq__ (self : t) (other : pyval) : result pyval :=
  result_bind (py_list other) (fun lo => Return (VBool (py_eq lo (VList (__iter__ self))))).

(** [list(other) != list(self)] *)
Definition __ne__ (self : t) (other : pyval) : result pyval :=
  result_bind (py_list other)
    (fun lo => Return (VBool (negb (py_eq lo (VList (__iter__ self)))))).

End ROMappingView.

(** [RowMapping.values] *)
Definition RowMapping_values (self : BaseRow) : ROMappingView.t :=
  ROMappingView.Make self (RowMapping_values_impl self).

(** ** Filters in sequence *)

(** The processor that runs [f] and then [g] on what [f] returned. *)
Definition then_processor (f g : option processor) : option processor :=
  Some (fun v => result_bind (run_processor f v) (run_processor g)).

(** ** Example rows *)

Module Examples.

(** A resolver that knows no further key, as the plain cursor metadata. *)
Definition no_fallback (k : key) (ke : exn) : result rec :=
  Raise (Exn NoSuchColumnError (AKey k)).

(** Columns [["id", "name"]]. *)
Definition keymap_id_name : gmap hkey rec :=
  <[HInt 0 := Rec (Some 0) (KStr "id")]>
    (<[HInt 1 := Rec (Some 1) (KStr "name")]>
       (<[HStr "id" := Rec (Some 0) (KStr "id")]>
          (<[HStr "name" := Rec (Some 1) (KStr "name")]> ∅))).

Definition meta_id_name : ResultMetaData.t :=
  ResultMetaData.Make [Some "id"; Some "name"] keymap_id_name no_fallback.

Definition row_id_name (ks : key_style) : BaseRow :=
  MkRow meta_id_name [VInt 1; VStr "Alice"] keymap_id_name ks.

(** Columns [["id", "id"]]: the name is shared. *)
Definition ambiguous_id : rec := Rec None (KStr "id").

Definition keymap_id_id : gmap hkey rec :=
  <[HInt 0 := Rec (Some 0) (KStr "id")]>
    (<[HInt 1 := Rec (Some 1) (KStr "id")]>
       (<[HStr "id" := ambiguous_id]> ∅)).

Definition meta_id_id : ResultMetaData.t :=
  ResultMetaData.Make [Some "id"; Some "id"] keymap_id_id no_fallback.

Definition row_id_id (ks : key_style) : BaseRow :=
  MkRow meta_id_id [VInt 1; VInt 2] keymap_id_id ks.

(** A processor that adds one to an integer and refuses anything else. *)
Definition incr : processor :=
  fun v =>
    match v with
    | VInt z => Return (VInt (z + 1))
    | _ => Raise (Exn TypeError (AText "an integer is required"))
    end.

(** A builtin [hash] that accepts tuples of integers only. *)
Definition sum_hash (v : pyval) : result Z :=
  match v with
  | VTuple l =>
      foldr (fun x acc =>
               result_bind acc (fun a =>
                 match x with
                 | VInt z => Return (a + z)
                 | _ => Raise (Exn TypeError (AText "unhashable type"))
                 end))
            (Return 0) l
  | _ => Raise (Exn TypeError (AText "unhashable type"))
  end.

(** A parent's [_has_key] that answers by the key map. *)
Definition has_key (p : ResultMetaData.t) (k : key) : bool :=
  match hash_key k with
  | Some h => bool_decide (is_Some (ResultMetaData._keymap p !! h))
  | None => false
  end.

End Examples.

(** ** Runs on the example rows *)

Example row_0 :
  __getitem__ (Examples.row_id_name KEY_OBJECTS_BUT_WARN) (KInt 0) [] = (Return (VInt 1), []).
Proof. vm_compute. reflexivity. Qed.

Example row_name :
  __getitem__ (Examples.row_id_name KEY_OBJECTS_BUT_WARN) (KStr "name") []
  = (Return (VStr "Alice"), [WarnNonint (KStr "name")]).
Proof. vm_compute. reflexivity. Qed.

Example row_mapping_id :
  _get_by_key_impl_mapping (Examples.row_id_name KEY_OBJECTS_ONLY) (KStr "id") []
  = (Return (VInt 1), []).
Proof. vm_compute. reflexivity. Qed.

Example row_last :
  __getitem__ (Examples.row_id_name KEY_INTEGER_ONLY) (KInt (-1)) []
  = (Return (VStr "Alice"), []).
Proof. vm_compute. reflexivity. Qed.

Example row_out_of_range :
  __getitem__ (Examples.row_id_name KEY_INTEGER_ONLY) (KInt 2) []
  = (Raise (Exn IndexError (AText "tuple index out of range")), []).
Proof. vm_compute. reflexivity. Qed.

Example row_reversed :
  tuple_getslice [VInt 1; VInt 2; VInt 3] (Slice None None (Some (-1)))
  = Return [VInt 3; VInt 2; VInt 1].
Proof. vm_compute. reflexivity. Qed.

Example row_every_other :
  tuple_getslice [VInt 1; VInt 2; VInt 3; VInt 4; VInt 5] (Slice (Some 1) (Some (-1)) (Some 2))
  = Return [VInt 2; VInt 4].
Proof. vm_compute. reflexivity. Qed.

Example chars_of_two_byte_character :
  py_list (VStr ("a" +:+ String (Ascii.ascii_of_nat 195)
                             (String (Ascii.ascii_of_nat 169) "b")))
  = Return (VList [VStr "a";
                   VStr (String (Ascii.ascii_of_nat 195)
                           (String (Ascii.ascii_of_nat 169) EmptyString));
                   VStr "b"]).
Proof. vm_compute. reflexivity. Qed.

Example row_unknown_attribute :
  __getattr__ (Examples.row_id_name KEY_OBJECTS_BUT_WARN) "missing" []
  = (Raise (Exn AttributeError (AKey (KStr "missing"))), []).
Proof. vm_compute. reflexivity. Qed.

(** ** Lemmas on the Python primitives *)

Lemma py_eq_refl : forall v, py_eq v v = true.
Proof.
  fix IH 1. intros [ | b | z | s | l | l]; simpl.
  - reflexivity.
  - apply Z.eqb_refl.
  - apply Z.eqb_refl.
  - apply String.eqb_refl.
  - induction l as [|x l IHl]; [reflexivity|].
    rewrite (IH x), IHl. reflexivity.
  - induction l as [|x l IHl]; [reflexivity|].
    rewrite (IH x), IHl. reflexivity.
Qed.

Lemma tuple_getitem_lookup (t : list pyval) (i : nat) (v : pyval) :
  t !! i = Some v -> tuple_getitem t (Z.of_nat i) = Return v.
Proof.
  intros Hi. unfold tuple_getitem.
  pose proof (lookup_lt_Some _ _ _ Hi) as Hlt.
  destruct (Z.ltb_spec (Z.of_nat i) 0) as [?|_]; [lia|].
  destruct (Z.ltb_spec (Z.of_nat i) 0) as [?|_]; [lia|].
  destruct (Z.leb_spec (Z.of_nat (length t)) (Z.of_nat i)) as [?|_]; [lia|].
  simpl. rewrite Nat2Z.id, Hi. reflexivity.
Qed.

Lemma tuple_getitem_raise (t : list pyval) (i : Z) (e : exn) :
  tuple_getitem t i = Raise e -> exn_cls e = IndexError.
Proof.
  unfold tuple_getitem.
  destruct (_ || _); [intros [= <-]; reflexivity|].
  destruct (t !! _); [discriminate|intros [= <-]; reflexivity].
Qed.

Lemma tuple_getitem_in_range (t : list pyval) (i : Z) :
  - Z.of_nat (length t) <= i < Z.of_nat (length t) ->
  exists v, tuple_getitem t i = Return v.
Proof.
  intros Hi. unfold tuple_getitem.
  set (j := if i <? 0 then i + Z.of_nat (length t) else i).
  assert (0 <= j < Z.of_nat (length t)) as Hj.
  { subst j. destruct (Z.ltb_spec i 0); lia. }
  destruct (Z.ltb_spec j 0) as [?|_]; [lia|].
  destruct (Z.leb_spec (Z.of_nat (length t)) j) as [?|_]; [lia|].
  simpl. destruct (lookup_lt_is_Some_2 t (Z.to_nat j)) as [v Hv]; [lia|].
  rewrite Hv. eauto.
Qed.

Lemma tuple_subscript_int_raise (t : list pyval) (k : key) (e : exn) :
  int_in_mro k = true -> tuple_subscript t k = Raise e -> exn_cls e = IndexError.
Proof.
  destruct k; simpl; try discriminate; intros _; apply tuple_getitem_raise.
Qed.

(** *** Processors *)

Lemma apply_processors_length (ps : list (option processor)) :
  forall (d out : list pyval),
    apply_processors ps d = Return out ->
    length out = Nat.min (length ps) (length d).
Proof.
  induction ps as [|p ps IH]; intros [|v d] out; simpl; try (intros [= <-]; reflexivity).
  destruct (run_processor p v); simpl; [|discriminate].
  destruct (apply_processors ps d) as [rest|] eqn:E; simpl; [|discriminate].
  intros [= <-]. simpl. f_equal. apply IH, E.
Qed.

Lemma apply_processors_lookup (ps : list (option processor)) :
  forall (d out : list pyval) (i : nat) (p : option processor) (v : pyval),
    apply_processors ps d = Return out ->
    ps !! i = Some p -> d !! i = Some v ->
    exists x, out !! i = Some x /\ run_processor p v = Return x.
Proof.
  induction ps as [|q ps IH]; intros [|u d] out i p v; simpl; try (intros _ [=]; fail).
  - intros _ _ [=].
  - destruct (run_processor q u) as [x|] eqn:Ex; simpl; [|discriminate].
    destruct (apply_processors ps d) as [rest|] eqn:E; simpl; [|discriminate].
    intros [= <-]. destruct i as [|i]; simpl.
    + intros [= <-] [= <-]. eauto.
    + intros Hp Hv. eapply IH; eauto.
Qed.

Lemma apply_processors_total (ps : list (option processor)) :
  forall (d : list pyval),
    (forall i p v, ps !! i = Some p -> d !! i = Some v -> exists x, run_processor p v = Return x) ->
    exists out, apply_processors ps d = Return out.
Proof.
  induction ps as [|q ps IH]; intros [|u d] Hok; simpl; eauto.
  destruct (Hok 0%nat q u eq_refl eq_refl) as [x ->]. simpl.
  destruct (IH d) as [rest ->].
  - intros i p v Hp Hv. apply (Hok (S i) p v Hp Hv).
  - simpl. eauto.
Qed.

(** *** Contiguous slices *)



(** ** Keyed access *)

(** C1: a key of an integer type is resolved by position, [self._data[key]],
    under each of the four key styles, without a warning; the only error
    it can end in is the [IndexError] of the tuple, never a rejection of
    the key. *)
Theorem getitem_integer_key (parent : ResultMetaData.t) (data : list pyval)
    (km : gmap hkey rec) (ks : key_style) (k : key) (w : list warning) :
  int_in_mro k = true ->
  let self := MkRow parent data km ks in
  __getitem__ self k w = (tuple_subscript data k, w) /\
  _get_by_int_impl self k = tuple_subscript data k /\
  (forall e, tuple_subscript data k = Raise e -> exn_cls e = IndexError) /\
  (forall (i : nat) (v : pyval),
      data !! i = Some v -> k = KInt (Z.of_nat i) -> __getitem__ self k w = (Return v, w)) /\
  (forall z : Z,
      k = KInt z -> - Z.of_nat (length data) <= z < Z.of_nat (length data) ->
      exists v, __getitem__ self k w = (Return v, w)).
Proof.
  intros Hint self. unfold __getitem__, _get_by_key_impl. simpl. rewrite Hint.
  repeat split.
  - intros e. apply tuple_subscript_int_raise, Hint.
  - intros i v Hv ->. simpl. unfold lift. rewrite (tuple_getitem_lookup _ _ _ Hv). reflexivity.
  - intros z -> Hz. simpl. unfold lift.
    destruct (tuple_getitem_in_range data z Hz) as [v ->]. eauto.
Qed.

Lemma getitem_integer_key_witness :
  int_in_mro (KInt 1) = true /\
  __getitem__ (Examples.row_id_name KEY_OBJECTS_ONLY) (KInt 1) [] = (Return (VStr "Alice"), []).
Proof.
  split; [reflexivity|].
  refine (proj1 (proj2 (proj2 (proj2
    (getitem_integer_key Examples.meta_id_name [VInt 1; VStr "Alice"] Examples.keymap_id_name
       KEY_OBJECTS_ONLY (KInt 1) [] eq_refl)))) 1%nat (VStr "Alice") eq_refl eq_refl).
Defined.

(** C2, as the code has it: when the key map files a name under the
    ambiguous record, the mapping accessor fails through the parent's
    ambiguous-column callback under every key style, and so does the
    combined accessor unless the key style is [KEY_INTEGER_ONLY], where
    the non-integer guard comes first; the error is not a [KeyError];
    every stored position is still read by integer. *)
Theorem ambiguous_name_access (self : BaseRow) (name : string) (r : rec) (w : list warning) :
  _keymap self !! HStr name = Some r ->
  MD_INDEX r = None ->
  let amb := Exn InvalidRequestError (AKey (md_lookup_key r)) in
  _get_by_key_impl_mapping self (KStr name) w = (Raise amb, w) /\
  (_key_style self <> KEY_INTEGER_ONLY ->
   _get_by_key_impl self (KStr name) w = (Raise amb, w)) /\
  (_key_style self = KEY_INTEGER_ONLY ->
   _get_by_key_impl self (KStr name) w = (Raise (Exn TypeError (AKey (KStr name))), w)) /\
  isinstance_KeyError amb = false /\
  (forall (i : nat) (v : pyval),
      _data self !! i = Some v ->
      _get_by_int_impl self (KInt (Z.of_nat i)) = Return v /\
      _get_by_key_impl self (KInt (Z.of_nat i)) w = (Return v, w)).
Proof.
  intros Hkm Hmd amb.
  assert (dict_getitem (_keymap self) (KStr name) = Return r) as Hget.
  { unfold dict_getitem. simpl. rewrite Hkm. reflexivity. }
  split; [|split; [|split; [|split]]].
  - unfold _get_by_key_impl_mapping, bind. rewrite Hget. simpl. rewrite Hmd. reflexivity.
  - intros Hks. unfold _get_by_key_impl, bind. simpl.
    destruct (_key_style self) eqn:E; try congruence; simpl;
      rewrite Hget; unfold by_key_tail, bind; rewrite Hmd; reflexivity.
  - intros Hks. unfold _get_by_key_impl, bind. simpl. rewrite Hks. reflexivity.
  - reflexivity.
  - intros i v Hv. unfold _get_by_int_impl, _get_by_key_impl, lift. simpl.
    rewrite (tuple_getitem_lookup _ _ _ Hv). split; reflexivity.
Qed.

Lemma ambiguous_name_access_witness :
  _get_by_key_impl_mapping (Examples.row_id_id KEY_OBJECTS_BUT_WARN) (KStr "id") []
  = (Raise (Exn InvalidRequestError (AKey (KStr "id"))), []).
Proof.
  exact (proj1 (ambiguous_name_access (Examples.row_id_id KEY_OBJECTS_BUT_WARN) "id"
                  Examples.ambiguous_id [] eq_refl eq_refl)).
Defined.

(** C2 as stated fails for a row of key style [KEY_INTEGER_ONLY]: the
    combined accessor rejects the name through [_raise_for_nonint] before
    it looks at the key map. *)
Lemma ambiguous_name_integer_only_counterexample :
  _keymap (Examples.row_id_id KEY_INTEGER_ONLY) !! HStr "id" = Some Examples.ambiguous_id /\
  MD_INDEX Examples.ambiguous_id = None /\
  __getitem__ (Examples.row_id_id KEY_INTEGER_ONLY) (KStr "id") []
  = (Raise (Exn TypeError (AKey (KStr "id"))), []) /\
  ~ (exists e, __getitem__ (Examples.row_id_id KEY_INTEGER_ONLY) (KStr "id") [] = (Raise e, [])
               /\ exn_cls e = InvalidRequestError).
Proof.
  split; [reflexivity|]. split; [reflexivity|]. split; [reflexivity|].
  intros [e [He Hc]]. vm_compute in He. injection He as <-. discriminate Hc.
Qed.

(** C3, what the code does: under [KEY_OBJECTS_ONLY] the mapping accessor
    refuses an integer key that the key map resolves, and the error it
    raises is [KeyError(key)], which is not a [TypeError]. *)
Theorem mapping_integer_key_objects_only (self : BaseRow) (k : key) (h : hkey) (r : rec)
    (i : Z) (w : list warning) :
  _key_style self = KEY_OBJECTS_ONLY ->
  int_in_mro k = true ->
  hash_key k = Some h ->
  _keymap self !! h = Some r ->
  MD_INDEX r = Some i ->
  RowMapping__getitem__ self k w = (Raise (Exn KeyError (AKey k)), w) /\
  isinstance_KeyError (Exn KeyError (AKey k)) = true /\
  isinstance_TypeError (Exn KeyError (AKey k)) = false.
Proof.
  intros Hks Hint Hh Hkm Hmd. repeat split.
  unfold RowMapping__getitem__, _get_by_key_impl_mapping, bind, dict_getitem.
  rewrite Hh, Hkm. simpl. rewrite Hmd, Hks, Hint. reflexivity.
Qed.

Lemma mapping_integer_key_objects_only_witness :
  RowMapping__getitem__ (Examples.row_id_name KEY_OBJECTS_ONLY) (KInt 0) []
  = (Raise (Exn KeyError (AKey (KInt 0))), []).
Proof.
  exact (proj1 (mapping_integer_key_objects_only (Examples.row_id_name KEY_OBJECTS_ONLY)
                  (KInt 0) (HInt 0) (Rec (Some 0) (KStr "id")) 0 []
                  eq_refl eq_refl eq_refl eq_refl eq_refl)).
Defined.

(** C4: for a key that is not of an integer type and that the key map,
    or else the parent's resolver, resolves to a position [i]: under
    [KEY_OBJECTS_BUT_WARN] the combined accessor emits the parent's
    non-integer notice exactly when [i != key] and then returns
    [self._data[i]]; under the other key styles it emits nothing. *)
Theorem warn_for_nonint_exactly (self : BaseRow) (k : key) (r : rec) (i : Z)
    (w : list warning) :
  int_in_mro k = false ->
  (dict_getitem (_keymap self) k = Return r \/
   exists ke, dict_getitem (_keymap self) k = Raise ke /\
              isinstance_KeyError ke = true /\
              ResultMetaData._key_fallback (_parent self) k ke = Return r) ->
  MD_INDEX r = Some i ->
  _get_by_key_impl self k w =
    match _key_style self with
    | KEY_INTEGER_ONLY => (Raise (Exn TypeError (AKey k)), w)
    | KEY_OBJECTS_BUT_WARN =>
        (tuple_getitem (_data self) i, if int_ne_key i k then w ++ [WarnNonint k] else w)
    | KEY_OBJECTS_ONLY | KEY_OBJECTS_NO_WARN => (tuple_getitem (_data self) i, w)
    end.
Proof.
  intros Hint Hres Hmd. unfold _get_by_key_impl. rewrite Hint.
  assert (forall w', by_key_tail self k r w' =
            if key_style_eqb (_key_style self) KEY_OBJECTS_BUT_WARN && int_ne_key i k
            then (tuple_getitem (_data self) i, w' ++ [WarnNonint k])
            else (tuple_getitem (_data self) i, w')) as Htail.
  { intros w'. unfold by_key_tail, bind. rewrite Hmd.
    destruct (_ && _); reflexivity. }
  assert (forall w',
            match dict_getitem (_keymap self) k with
            | Return r0 => by_key_tail self k r0
            | Raise ke =>
                if isinstance_KeyError ke
                then r0 <- lift (ResultMetaData._key_fallback (_parent self) k ke) ;;
                     by_key_tail self k r0
                else if isinstance_TypeError ke
                     then if isinstance_slice k
                          then lift (result_bind (tuple_subscript (_data self) k) py_tuple)
                          else raise ke
                     else raise ke
            end w' = by_key_tail self k r w') as Hlook.
  { intros w'. destruct Hres as [-> | (ke & -> & -> & Hfb)]; [reflexivity|].
    unfold bind, lift. rewrite Hfb. reflexivity. }
  unfold bind at 1.
  destruct (_key_style self); simpl; try reflexivity; rewrite Hlook, Htail; simpl;
    try reflexivity.
  destruct (int_ne_key i k); reflexivity.
Qed.

Lemma warn_for_nonint_exactly_witness :
  _get_by_key_impl (Examples.row_id_name KEY_OBJECTS_BUT_WARN) (KNum 1) []
  = (Return (VStr "Alice"), []) /\
  _get_by_key_impl (Examples.row_id_name KEY_OBJECTS_BUT_WARN) (KStr "name") []
  = (Return (VStr "Alice"), [WarnNonint (KStr "name")]).
Proof.
  split.
  - exact (warn_for_nonint_exactly (Examples.row_id_name KEY_OBJECTS_BUT_WARN) (KNum 1)
             (Rec (Some 1) (KStr "name")) 1 [] eq_refl (or_introl eq_refl) eq_refl).
  - exact (warn_for_nonint_exactly (Examples.row_id_name KEY_OBJECTS_BUT_WARN) (KStr "name")
             (Rec (Some 1) (KStr "name")) 1 [] eq_refl (or_introl eq_refl) eq_refl).
Defined.

(** ** Comparison and hashing *)

Lemma eq_same_data (r1 r2 : BaseRow) :
  _data r1 = _data r2 -> __eq__ r1 (ORow r2) = Return (VBool true).
Proof.
  intros Hd. unfold __eq__, _op, __iter__, operator_eq.
  rewrite Hd, py_eq_refl. reflexivity.
Qed.

(** C5, as the code has it: two rows over the same values have the same
    hash and compare equal whatever their parents, key maps and key
    styles are, and a row compares equal to the plain tuple of its
    values; against a list the comparison is that of a tuple with a
    list. *)
Theorem eq_hash_values_only (hash : pyval -> result Z) (r1 r2 : BaseRow) :
  _data r1 = _data r2 ->
  __hash__ hash r1 = __hash__ hash r2 /\
  __eq__ r1 (ORow r2) = Return (VBool true) /\
  __ne__ r1 (ORow r2) = Return (VBool false) /\
  __eq__ r1 (OVal (VTuple (_data r2))) = Return (VBool true) /\
  (forall l, __eq__ r1 (OVal (VList l)) = Return (VBool false)).
Proof.
  intros Hd. unfold __hash__, __eq__, __ne__, _op, __iter__, operator_eq, operator_ne.
  rewrite Hd, py_eq_refl. repeat split.
Qed.

Lemma eq_hash_values_only_witness :
  __hash__ Examples.sum_hash (Examples.row_id_id KEY_INTEGER_ONLY)
  = __hash__ Examples.sum_hash
      (MkRow Examples.meta_id_name [VInt 1; VInt 2] ∅ KEY_OBJECTS_NO_WARN) /\
  __eq__ (Examples.row_id_id KEY_INTEGER_ONLY)
    (ORow (MkRow Examples.meta_id_name [VInt 1; VInt 2] ∅ KEY_OBJECTS_NO_WARN))
  = Return (VBool true).
Proof.
  pose proof (eq_hash_values_only Examples.sum_hash (Examples.row_id_id KEY_INTEGER_ONLY)
                (MkRow Examples.meta_id_name [VInt 1; VInt 2] ∅ KEY_OBJECTS_NO_WARN) eq_refl)
    as (H1 & H2 & _).
  exact (conj H1 H2).
Defined.

(** C5 as stated fails for a list: [_op] hands the other operand to the
    operator unchanged, and a tuple is never equal to a list. *)
Lemma eq_list_counterexample :
  __eq__ (Examples.row_id_id KEY_OBJECTS_BUT_WARN) (OVal (VList [VInt 1; VInt 2]))
  = Return (VBool false).
Proof. reflexivity. Qed.

(** ** Pickling *)

(** C6: the state captured for pickling has exactly the entries
    [_parent], [_data] and [_key_style]; the reconstructor rebuilds from
    it a row with the same parent, values and key style whose key map is
    the parent's, with the same hash and equal to the original. *)
Theorem pickle_round_trip (hash : pyval -> result Z) (self : BaseRow) :
  dom (__getstate__ self) = ({["_parent"; "_data"; "_key_style"]} : gset string) /\
  __getstate__ self !! "_parent" = Some (SParent (_parent self)) /\
  __getstate__ self !! "_data" = Some (SData (_data self)) /\
  __getstate__ self !! "_key_style" = Some (SKeyStyle (_key_style self)) /\
  exists restored,
    rowproxy_reconstructor (__reduce__ self) = Return restored /\
    _parent restored = _parent self /\
    _data restored = _data self /\
    _key_style restored = _key_style self /\
    _keymap restored = ResultMetaData._keymap (_parent self) /\
    __hash__ hash restored = __hash__ hash self /\
    __eq__ restored (ORow self) = Return (VBool true).
Proof.
  assert (__getstate__ self !! "_parent" = Some (SParent (_parent self))) as Hp.
  { unfold __getstate__. apply lookup_insert_eq. }
  assert (__getstate__ self !! "_data" = Some (SData (_data self))) as Hd.
  { unfold __getstate__. rewrite lookup_insert_ne by discriminate. apply lookup_insert_eq. }
  assert (__getstate__ self !! "_key_style" = Some (SKeyStyle (_key_style self))) as Hk.
  { unfold __getstate__. rewrite !lookup_insert_ne by discriminate. apply lookup_insert_eq. }
  split; [|split; [exact Hp|split; [exact Hd|split; [exact Hk|]]]].
  - unfold __getstate__. rewrite !dom_insert_L, dom_empty_L. set_solver.
  - eexists. split.
    + unfold rowproxy_reconstructor, __reduce__, __setstate__, state_getitem.
      rewrite Hp, Hd, Hk. simpl. reflexivity.
    + repeat split. apply eq_same_data. reflexivity.
Qed.

(** ** Construction *)

(** C7: for a row built from [n] raw values, with a processor sequence
    that, when supplied, has one entry per raw value: the construction
    returns whenever the processors do; the row then has length [n], and
    reading position [i] gives the processor's result on the [i]-th raw
    value where an entry is present, and the raw value itself where the
    entry is [None] or no processors are supplied. *)
Theorem init_values (parent : ResultMetaData.t)
    (processors : option (list (option processor)))
    (km : gmap hkey rec) (ks : key_style) (raw : list pyval) :
  (forall ps, processors = Some ps -> ps <> [] -> length ps = length raw) ->
  ((forall ps i p v, processors = Some ps -> ps !! i = Some p -> raw !! i = Some v ->
                     exists x, run_processor p v = Return x) ->
   exists self, __init__ parent processors km ks raw = Return self) /\
  (forall self,
      __init__ parent processors km ks raw = Return self ->
      __len__ self = Z.of_nat (length raw) /\
      forall (i : nat) (v : pyval),
        raw !! i = Some v ->
        _get_by_int_impl self (KInt (Z.of_nat i)) =
          match processors with
          | Some ((_ :: _) as ps) =>
              match ps !! i with
              | Some (Some f) => f v
              | _ => Return v
              end
          | _ => Return v
          end).
Proof.
  intros Hlen. unfold __init__.
  destruct processors as [[|p ps]|]; cbn [truthy from_option id].
  - split; [eauto|]. intros self [= <-]. split; [reflexivity|].
    intros i v Hv. apply tuple_getitem_lookup, Hv.
  - specialize (Hlen (p :: ps) eq_refl ltac:(discriminate)).
    split.
    + intros Hok.
      destruct (apply_processors_total (p :: ps) raw) as [out ->]; [|simpl; eauto].
      intros i q v Hq Hv. eapply Hok; eauto.
    + intros self.
      destruct (apply_processors (p :: ps) raw) as [out|] eqn:Hout; [|discriminate].
      intros [= <-]. unfold __len__, _get_by_int_impl. cbn [_data].
      pose proof (apply_processors_length _ _ _ Hout) as Hl.
      split; [rewrite Hl, Hlen; f_equal; lia|].
      intros i v Hv.
      destruct (lookup_lt_is_Some_2 (p :: ps) i) as [q Hq].
      { rewrite Hlen. eapply lookup_lt_Some, Hv. }
      destruct (apply_processors_lookup _ _ _ _ _ _ Hout Hq Hv) as (x & Hx & Hrun).
      cbn [tuple_subscript]. rewrite (tuple_getitem_lookup _ _ _ Hx).
      match goal with
      | |- _ = match ?t with _ => _ end => replace t with (Some q) by (symmetry; exact Hq)
      end.
      destruct q; simpl in Hrun; congruence.
  - split; [eauto|]. intros self [= <-]. split; [reflexivity|].
    intros i v Hv. apply tuple_getitem_lookup, Hv.
Qed.

Lemma init_values_witness :
  exists self,
    __init__ Examples.meta_id_name (Some [Some Examples.incr; None]) Examples.keymap_id_name
      KEY_OBJECTS_BUT_WARN [VInt 1; VStr "Alice"] = Return self /\
    __len__ self = 2 /\
    _get_by_int_impl self (KInt 0) = Return (VInt 2) /\
    _get_by_int_impl self (KInt 1) = Return (VStr "Alice").
Proof.
  pose proof (init_values Examples.meta_id_name (Some [Some Examples.incr; None])
                Examples.keymap_id_name KEY_OBJECTS_BUT_WARN [VInt 1; VStr "Alice"]) as H.
  destruct H as [_ H].
  { intros ps [= <-] _. reflexivity. }
  eexists. split; [reflexivity|].
  destruct (H _ eq_refl) as [Hl Hget].
  split; [exact Hl|]. split.
  - exact (Hget 0%nat (VInt 1) eq_refl).
  - exact (Hget 1%nat (VStr "Alice") eq_refl).
Defined.

(** C9: [_filter_on_values] returns whenever the filters do, and the row
    it returns has the parent, key map and key style of the original; its
    values are the original's, each passed through the filter at its
    position: position [i] of the new row reads [f v] for the filter [f]
    and the original value [v] at [i], and [v] itself where the filter is
    [None] ([None] filters and an absent filter list leave the values as
    they are). *)
Theorem filter_on_values_shares (self : BaseRow)
    (filters : option (list (option processor))) :
  ((forall fs i f v, filters = Some fs -> fs !! i = Some f -> _data self !! i = Some v ->
                     exists x, match f with Some g => g v | None => Return v end = Return x) ->
   exists derived, _filter_on_values self filters = Return derived) /\
  (forall derived,
      _filter_on_values self filters = Return derived ->
      _parent derived = _parent self /\
      _keymap derived = _keymap self /\
      _key_style derived = _key_style self /\
      (truthy filters = false -> _data derived = _data self) /\
      (forall fs, filters = Some fs -> fs <> [] ->
         length (_data derived) = Nat.min (length fs) (length (_data self)) /\
         forall i f v,
           fs !! i = Some f -> _data self !! i = Some v ->
           _get_by_int_impl derived (KInt (Z.of_nat i))
           = match f with Some g => g v | None => Return v end /\
           exists x, _data derived !! i = Some x /\
                     match f with Some g => g v | None => Return v end = Return x)).
Proof.
  unfold _filter_on_values, __init__. split.
  - intros Hok. destruct (truthy filters) eqn:Ht; [|simpl; eauto].
    destruct filters as [fs|]; [|discriminate]. cbn [from_option id].
    destruct (apply_processors_total fs (_data self)) as [out ->]; simpl; eauto.
  - intros derived.
    destruct (truthy filters) eqn:Ht.
    + destruct filters as [fs|]; [|discriminate]. cbn [from_option id].
      destruct (apply_processors fs (_data self)) as [out|] eqn:Hout; [|discriminate].
      intros [= <-]. cbn [_parent _keymap _key_style _data].
      split; [reflexivity|]. split; [reflexivity|]. split; [reflexivity|].
      split; [discriminate|].
      intros fs' [= <-] _. split.
      * eapply apply_processors_length, Hout.
      * intros i f v Hf Hv.
        destruct (apply_processors_lookup _ _ _ _ _ _ Hout Hf Hv) as (x & Hx & Hrun).
        unfold run_processor in Hrun. split; [|eauto].
        unfold _get_by_int_impl. cbn [_data tuple_subscript].
        rewrite (tuple_getitem_lookup _ _ _ Hx). symmetry. exact Hrun.
    + intros [= <-]. cbn [_parent _keymap _key_style _data].
      split; [reflexivity|]. split; [reflexivity|]. split; [reflexivity|].
      split; [reflexivity|].
      intros fs -> Hne. destruct fs; [congruence|discriminate].
Qed.

Lemma filter_on_values_shares_witness :
  exists derived,
    _filter_on_values (Examples.row_id_id KEY_OBJECTS_NO_WARN)
      (Some [None; Some Examples.incr]) = Return derived /\
    _parent derived = Examples.meta_id_id /\
    _keymap derived = Examples.keymap_id_id /\
    _key_style derived = KEY_OBJECTS_NO_WARN /\
    _get_by_int_impl derived (KInt 0) = Return (VInt 1) /\
    _get_by_int_impl derived (KInt 1) = Return (VInt 3).
Proof.
  eexists. split; [reflexivity|].
  destruct (proj2 (filter_on_values_shares (Examples.row_id_id KEY_OBJECTS_NO_WARN)
                     (Some [None; Some Examples.incr])) _ eq_refl)
    as (H1 & H2 & H3 & _ & Hvals).
  destruct (Hvals _ eq_refl ltac:(discriminate)) as [_ Hget].
  split; [exact H1|]. split; [exact H2|]. split; [exact H3|]. split.
  - exact (proj1 (Hget 0%nat None (VInt 1) eq_refl eq_refl)).
  - exact (proj1 (Hget 1%nat (Some Examples.incr) (VInt 2) eq_refl eq_refl)).
Defined.

(** ** Slices and attribute access *)





(** C10: attribute access resolves the name through the mapping
    accessor: a value it returns is returned, under every key style; a
    [KeyError] it raises comes out as an [AttributeError] with the same
    first argument; any other error comes out unchanged; so attribute
    access never ends in a [KeyError]. *)
Theorem getattr_via_mapping (self : BaseRow) (name : string) (w : list warning) :
  (forall v w', _get_by_key_impl_mapping self (KStr name) w = (Return v, w') ->
                __getattr__ self name w = (Return v, w')) /\
  (forall e w', _get_by_key_impl_mapping self (KStr name) w = (Raise e, w') ->
                isinstance_KeyError e = true ->
                __getattr__ self name w = (Raise (Exn AttributeError (exn_arg0 e)), w')) /\
  (forall e w', _get_by_key_impl_mapping self (KStr name) w = (Raise e, w') ->
                isinstance_KeyError e = false ->
                __getattr__ self name w = (Raise e, w')) /\
  (forall e w', __getattr__ self name w = (Raise e, w') -> isinstance_KeyError e = false) /\
  (forall r i, _keymap self !! HStr name = Some r -> MD_INDEX r = Some i ->
               __getattr__ self name w = (tuple_getitem (_data self) i, w)) /\
  (forall e, _keymap self !! HStr name = None ->
             ResultMetaData._key_fallback (_parent self) (KStr name)
               (Exn KeyError (AKey (KStr name))) = Raise e ->
             isinstance_KeyError e = true ->
             __getattr__ self name w = (Raise (Exn AttributeError (exn_arg0 e)), w)).
Proof.
  unfold __getattr__, try_except.
  split; [|split; [|split; [|split; [|split]]]].
  - intros v w' ->. reflexivity.
  - intros e w' -> ->. reflexivity.
  - intros e w' -> ->. reflexivity.
  - intros e w'. destruct (_get_by_key_impl_mapping self (KStr name) w) as [[v|e0] w0].
    + discriminate.
    + destruct (isinstance_KeyError e0) eqn:E.
      * intros [= <- _]. reflexivity.
      * intros [= <- _]. exact E.
  - intros r i Hkm Hmd.
    unfold _get_by_key_impl_mapping, bind, dict_getitem. simpl. rewrite Hkm. simpl.
    rewrite Hmd. rewrite andb_false_r. simpl. unfold lift.
    destruct (tuple_getitem (_data self) i) as [v|e] eqn:E; [reflexivity|].
    unfold isinstance_KeyError. rewrite (tuple_getitem_raise _ _ _ E). reflexivity.
  - intros e Hkm Hfb Hke.
    unfold _get_by_key_impl_mapping, bind, dict_getitem. simpl. rewrite Hkm. simpl.
    unfold lift. rewrite Hfb, Hke. reflexivity.
Qed.

Lemma getattr_via_mapping_witness :
  __getattr__ (Examples.row_id_name KEY_OBJECTS_ONLY) "name" [] = (Return (VStr "Alice"), []) /\
  __getattr__ (Examples.row_id_name KEY_OBJECTS_ONLY) "missing" []
  = (Raise (Exn AttributeError (AKey (KStr "missing"))), []).
Proof.
  pose proof (getattr_via_mapping (Examples.row_id_name KEY_OBJECTS_ONLY) "name" [])
    as (_ & _ & _ & _ & H1 & _).
  pose proof (getattr_via_mapping (Examples.row_id_name KEY_OBJECTS_ONLY) "missing" [])
    as (_ & _ & _ & _ & _ & H2).
  split.
  - exact (H1 (Rec (Some 1) (KStr "name")) 1 eq_refl eq_refl).
  - exact (H2 (Exn NoSuchColumnError (AKey (KStr "missing"))) eq_refl eq_refl eq_refl).
Defined.


(** ** Further properties of keyed and positional access *)

Lemma by_key_tail_eq (self : BaseRow) (k : key) (r : rec) (w : list warning) :
  by_key_tail self k r w =
    match MD_INDEX r with
    | None => (Raise (Exn InvalidRequestError (AKey (md_lookup_key r))), w)
    | Some i =>
        (tuple_getitem (_data self) i,
         if key_style_eqb (_key_style self) KEY_OBJECTS_BUT_WARN && int_ne_key i k
         then w ++ [WarnNonint k] else w)
    end.
Proof.
  unfold by_key_tail, bind. destruct (MD_INDEX r) as [i|]; [|reflexivity].
  destruct (_ && _); reflexivity.
Qed.

Lemma get_by_key_impl_nonint_eq (self : BaseRow) (k : key) (w : list warning) :
  int_in_mro k = false ->
  _key_style self <> KEY_INTEGER_ONLY ->
  _get_by_key_impl self k w =
    match dict_getitem (_keymap self) k with
    | Return r => by_key_tail self k r w
    | Raise ke =>
        if isinstance_KeyError ke then
          match ResultMetaData._key_fallback (_parent self) k ke with
          | Return r => by_key_tail self k r w
          | Raise e => (Raise e, w)
          end
        else if isinstance_TypeError ke && isinstance_slice k
             then (result_bind (tuple_subscript (_data self) k) py_tuple, w)
             else (Raise ke, w)
    end.
Proof.
  intros Hint Hks. unfold _get_by_key_impl. rewrite Hint. unfold bind at 1.
  assert ((if key_style_eqb (_key_style self) KEY_INTEGER_ONLY
           then ResultMetaData._raise_for_nonint (_parent self) k
           else ret tt) w = (Return tt, w)) as ->.
  { destruct (_key_style self); try congruence; reflexivity. }
  destruct (dict_getitem (_keymap self) k) as [r|ke]; [reflexivity|].
  destruct (isinstance_KeyError ke).
  - unfold bind, lift. destruct (ResultMetaData._key_fallback _ _ _); reflexivity.
  - destruct (isinstance_TypeError ke); [|reflexivity].
    destruct (isinstance_slice k); reflexivity.
Qed.

Lemma get_by_key_impl_mapping_eq (self : BaseRow) (k : key) (w : list warning) :
  _get_by_key_impl_mapping self k w =
    let tail (r : rec) :=
      match MD_INDEX r with
      | None => (Raise (Exn InvalidRequestError (AKey (md_lookup_key r))), w)
      | Some i =>
          if key_style_eqb (_key_style self) KEY_OBJECTS_ONLY && int_in_mro k
          then (Raise (Exn KeyError (AKey k)), w)
          else (tuple_getitem (_data self) i, w)
      end in
    match dict_getitem (_keymap self) k with
    | Return r => tail r
    | Raise ke =>
        if isinstance_KeyError ke then
          match ResultMetaData._key_fallback (_parent self) k ke with
          | Return r => tail r
          | Raise e => (Raise e, w)
          end
        else (Raise ke, w)
    end.
Proof.
  unfold _get_by_key_impl_mapping, bind.
  assert (forall r : rec,
    (let (r0, w') :=
       match MD_INDEX r with
       | Some _ =>
           if key_style_eqb (_key_style self) KEY_OBJECTS_ONLY && int_in_mro k
           then raise (Exn KeyError (AKey k)) else ret tt
       | None => ResultMetaData._raise_for_ambiguous_column_name (_parent self) r
       end w in
     match r0 with
     | Return _ => lift (tuple_getitem_md (_data self) (MD_INDEX r)) w'
     | Raise e => (Raise e, w')
     end) =
    match MD_INDEX r with
    | None => (Raise (Exn InvalidRequestError (AKey (md_lookup_key r))), w)
    | Some i =>
        if key_style_eqb (_key_style self) KEY_OBJECTS_ONLY && int_in_mro k
        then (Raise (Exn KeyError (AKey k)), w)
        else (tuple_getitem (_data self) i, w)
    end) as Htail.
  { intros r. destruct (MD_INDEX r) as [i|]; [|reflexivity].
    destruct (_ && _); reflexivity. }
  destruct (dict_getitem (_keymap self) k) as [r|ke]; simpl.
  - apply Htail.
  - destruct (isinstance_KeyError ke); [|reflexivity].
    unfold lift. destruct (ResultMetaData._key_fallback _ _ _) as [r|e]; [|reflexivity].
    apply Htail.
Qed.

Lemma tuple_getitem_negative (t : list pyval) (i : nat) (v : pyval) :
  t !! i = Some v ->
  tuple_getitem t (Z.of_nat i - Z.of_nat (length t)) = Return v.
Proof.
  intros Hi. pose proof (lookup_lt_Some _ _ _ Hi) as Hlt.
  unfold tuple_getitem.
  destruct (Z.ltb_spec (Z.of_nat i - Z.of_nat (length t)) 0) as [_|?]; [|lia].
  replace (Z.of_nat i - Z.of_nat (length t) + Z.of_nat (length t)) with (Z.of_nat i) by lia.
  destruct (Z.ltb_spec (Z.of_nat i) 0) as [?|_]; [lia|].
  destruct (Z.leb_spec (Z.of_nat (length t)) (Z.of_nat i)) as [?|_]; [lia|].
  simpl. rewrite Nat2Z.id, Hi. reflexivity.
Qed.

Lemma tuple_getitem_out_of_range (t : list pyval) (z : Z) :
  z < - Z.of_nat (length t) \/ Z.of_nat (length t) <= z ->
  tuple_getitem t z = Raise (Exn IndexError (AText "tuple index out of range")).
Proof.
  intros Hz. unfold tuple_getitem.
  destruct (Z.ltb_spec z 0).
  - destruct (Z.ltb_spec (z + Z.of_nat (length t)) 0) as [_|?]; [reflexivity|lia].
  - destruct (Z.ltb_spec z 0) as [?|_]; [lia|].
    destruct (Z.leb_spec (Z.of_nat (length t)) z) as [_|?]; [reflexivity|lia].
Qed.

(** X1: a negative integer key counts from the end of the row: position
    [i - len(row)] holds the value of position [i], for the positional and
    for the combined accessor alike. *)
Theorem getitem_negative_index (self : BaseRow) (i : nat) (v : pyval) (w : list warning) :
  _data self !! i = Some v ->
  _get_by_int_impl self (KInt (Z.of_nat i - __len__ self)) = Return v /\
  __getitem__ self (KInt (Z.of_nat i - __len__ self)) w = (Return v, w).
Proof.
  intros Hi. unfold _get_by_int_impl, __getitem__, _get_by_key_impl, __len__, lift. simpl.
  rewrite (tuple_getitem_negative _ _ _ Hi). split; reflexivity.
Qed.

Lemma getitem_negative_index_witness :
  __getitem__ (Examples.row_id_name KEY_INTEGER_ONLY) (KInt (-2)) [] = (Return (VInt 1), []).
Proof.
  exact (proj2 (getitem_negative_index (Examples.row_id_name KEY_INTEGER_ONLY) 0%nat
                  (VInt 1) [] eq_refl)).
Defined.

(** X2: an integer key below [-len(row)] or from [len(row)] on ends in
    the tuple's [IndexError], under every key style and without a
    warning; the key map and the parent's resolver are not asked. *)
Theorem getitem_out_of_range (self : BaseRow) (z : Z) (w : list warning) :
  z < - __len__ self \/ __len__ self <= z ->
  _get_by_int_impl self (KInt z) = Raise (Exn IndexError (AText "tuple index out of range")) /\
  __getitem__ self (KInt z) w = (Raise (Exn IndexError (AText "tuple index out of range")), w).
Proof.
  intros Hz. unfold _get_by_int_impl, __getitem__, _get_by_key_impl, lift. simpl.
  rewrite (tuple_getitem_out_of_range _ _ Hz). split; reflexivity.
Qed.

Lemma getitem_out_of_range_witness :
  __getitem__ (Examples.row_id_name KEY_OBJECTS_NO_WARN) (KInt (-3)) []
  = (Raise (Exn IndexError (AText "tuple index out of range")), []).
Proof.
  exact (proj2 (getitem_out_of_range (Examples.row_id_name KEY_OBJECTS_NO_WARN) (-3) []
                  ltac:(left; vm_compute; reflexivity))).
Defined.

(** X3: for a key that is neither of an integer type nor a slice, and a
    key style other than [KEY_INTEGER_ONLY], the combined accessor and
    the mapping accessor come to the same result, value or error. *)
Theorem accessors_agree (self : BaseRow) (k : key) (w : list warning) :
  int_in_mro k = false ->
  isinstance_slice k = false ->
  _key_style self <> KEY_INTEGER_ONLY ->
  fst (_get_by_key_impl self k w) = fst (_get_by_key_impl_mapping self k w).
Proof.
  intros Hint Hsl Hks.
  rewrite (get_by_key_impl_nonint_eq _ _ _ Hint Hks), get_by_key_impl_mapping_eq.
  rewrite Hint, Hsl, !andb_false_r. cbv zeta.
  destruct (dict_getitem (_keymap self) k) as [r|ke].
  - rewrite by_key_tail_eq. destruct (MD_INDEX r); reflexivity.
  - destruct (isinstance_KeyError ke); [|rewrite andb_false_r; reflexivity].
    destruct (ResultMetaData._key_fallback _ _ _) as [r|e]; [|reflexivity].
    rewrite by_key_tail_eq. destruct (MD_INDEX r); reflexivity.
Qed.

Lemma accessors_agree_witness :
  fst (_get_by_key_impl (Examples.row_id_name KEY_OBJECTS_BUT_WARN) (KStr "name") [])
  = fst (_get_by_key_impl_mapping (Examples.row_id_name KEY_OBJECTS_BUT_WARN) (KStr "name") []).
Proof.
  exact (accessors_agree (Examples.row_id_name KEY_OBJECTS_BUT_WARN) (KStr "name") []
           eq_refl eq_refl ltac:(discriminate)).
Defined.

(** X4: the mapping accessor and attribute access never emit a warning;
    the combined accessor emits at most one, the non-integer notice for
    its own key, and only for a key not of an integer type under
    [KEY_OBJECTS_BUT_WARN]. *)
Theorem warnings_bounded (self : BaseRow) (k : key) (name : string) (w : list warning) :
  snd (_get_by_key_impl_mapping self k w) = w /\
  snd (__getattr__ self name w) = w /\
  (snd (_get_by_key_impl self k w) = w \/
   (snd (_get_by_key_impl self k w) = w ++ [WarnNonint k] /\
    _key_style self = KEY_OBJECTS_BUT_WARN /\ int_in_mro k = false)).
Proof.
  assert (forall k', snd (_get_by_key_impl_mapping self k' w) = w) as Hmap.
  { intros k'. rewrite get_by_key_impl_mapping_eq. cbv zeta.
    destruct (dict_getitem (_keymap self) k') as [r|ke].
    - destruct (MD_INDEX r); [destruct (_ && _)|]; reflexivity.
    - destruct (isinstance_KeyError ke); [|reflexivity].
      destruct (ResultMetaData._key_fallback _ _ _) as [r|e]; [|reflexivity].
      destruct (MD_INDEX r); [destruct (_ && _)|]; reflexivity. }
  split; [apply Hmap|]. split.
  - unfold __getattr__, try_except. specialize (Hmap (KStr name)).
    destruct (_get_by_key_impl_mapping self (KStr name) w) as [[v|e] w']; simpl in *.
    + exact Hmap.
    + destruct (isinstance_KeyError e); exact Hmap.
  - destruct (int_in_mro k) eqn:Hint.
    { left. unfold _get_by_key_impl. rewrite Hint. reflexivity. }
    assert (_key_style self = KEY_INTEGER_ONLY \/ _key_style self <> KEY_INTEGER_ONLY)
      as [Hks|Hks] by (destruct (_key_style self); auto; right; discriminate).
    { left. unfold _get_by_key_impl, bind. rewrite Hint, Hks. reflexivity. }
    rewrite (get_by_key_impl_nonint_eq _ _ _ Hint Hks).
    assert (forall r,
              snd (by_key_tail self k r w) = w \/
              (snd (by_key_tail self k r w) = w ++ [WarnNonint k] /\
               _key_style self = KEY_OBJECTS_BUT_WARN /\ false = false)) as Htail.
    { intros r. rewrite by_key_tail_eq. destruct (MD_INDEX r) as [i|]; [|left; reflexivity].
      destruct (_key_style self); simpl; try (left; reflexivity).
      destruct (int_ne_key i k); [right|left]; auto. }
    destruct (dict_getitem (_keymap self) k) as [r|ke]; [apply Htail|].
    destruct (isinstance_KeyError ke).
    + destruct (ResultMetaData._key_fallback _ _ _) as [r|e]; [apply Htail|left; reflexivity].
    + destruct (_ && _); left; reflexivity.
Qed.

(** X5: a key not of an integer type that the key map resolves to
    position [i] reads the same value as the integer [i] does, through
    the combined accessor (key style other than [KEY_INTEGER_ONLY]) and
    through the mapping accessor. *)
Theorem key_reads_resolved_position (self : BaseRow) (k : key) (h : hkey) (r : rec)
    (i : Z) (w : list warning) :
  int_in_mro k = false ->
  hash_key k = Some h ->
  _keymap self !! h = Some r ->
  MD_INDEX r = Some i ->
  fst (_get_by_key_impl_mapping self k w) = _get_by_int_impl self (KInt i) /\
  (_key_style self <> KEY_INTEGER_ONLY ->
   fst (__getitem__ self k w) = fst (__getitem__ self (KInt i) w)).
Proof.
  intros Hint Hh Hkm Hmd.
  assert (dict_getitem (_keymap self) k = Return r) as Hget.
  { unfold dict_getitem. rewrite Hh, Hkm. reflexivity. }
  split.
  - rewrite get_by_key_impl_mapping_eq. cbv zeta.
    rewrite Hget, Hmd, Hint, andb_false_r. reflexivity.
  - intros Hks. unfold __getitem__.
    rewrite (get_by_key_impl_nonint_eq _ _ _ Hint Hks), Hget, by_key_tail_eq, Hmd.
    reflexivity.
Qed.

Lemma key_reads_resolved_position_witness :
  fst (_get_by_key_impl_mapping (Examples.row_id_name KEY_OBJECTS_ONLY) (KStr "name") [])
  = _get_by_int_impl (Examples.row_id_name KEY_OBJECTS_ONLY) (KInt 1).
Proof.
  exact (proj1 (key_reads_resolved_position (Examples.row_id_name KEY_OBJECTS_ONLY)
                  (KStr "name") (HStr "name") (Rec (Some 1) (KStr "name")) 1 []
                  eq_refl eq_refl eq_refl eq_refl)).
Defined.

(** X6: for a hashable key the key map has no entry for, the parent's
    resolver is asked with the [KeyError] of the lookup, and when it
    raises, that error is the result: of the mapping accessor for every
    key, integers included (no positional reading), and of the combined
    accessor for a key not of an integer type outside
    [KEY_INTEGER_ONLY]. *)
Theorem missing_key_error (self : BaseRow) (k : key) (h : hkey) (e : exn) (w : list warning) :
  hash_key k = Some h ->
  _keymap self !! h = None ->
  ResultMetaData._key_fallback (_parent self) k (Exn KeyError (AKey k)) = Raise e ->
  _get_by_key_impl_mapping self k w = (Raise e, w) /\
  (int_in_mro k = false -> _key_style self <> KEY_INTEGER_ONLY ->
   _get_by_key_impl self k w = (Raise e, w)).
Proof.
  intros Hh Hkm Hfb.
  assert (dict_getitem (_keymap self) k = Raise (Exn KeyError (AKey k))) as Hget.
  { unfold dict_getitem. rewrite Hh, Hkm. reflexivity. }
  split.
  - rewrite get_by_key_impl_mapping_eq. cbv zeta. rewrite Hget. simpl. rewrite Hfb. reflexivity.
  - intros Hint Hks. rewrite (get_by_key_impl_nonint_eq _ _ _ Hint Hks), Hget. simpl.
    rewrite Hfb. reflexivity.
Qed.

Lemma missing_key_error_witness :
  _get_by_key_impl_mapping (Examples.row_id_name KEY_OBJECTS_NO_WARN) (KInt (-1)) []
  = (Raise (Exn NoSuchColumnError (AKey (KInt (-1)))), []) /\
  __getitem__ (Examples.row_id_name KEY_OBJECTS_NO_WARN) (KInt (-1)) []
  = (Return (VStr "Alice"), []).
Proof.
  split; [|reflexivity].
  exact (proj1 (missing_key_error (Examples.row_id_name KEY_OBJECTS_NO_WARN) (KInt (-1))
                  (HInt (-1)) (Exn NoSuchColumnError (AKey (KInt (-1)))) []
                  eq_refl eq_refl eq_refl)).
Defined.

(** X7: the mapping accessor has no slice support: for an unhashable
    key, a slice included, the [TypeError] of the key map lookup is its
    result under every key style, and the parent's resolver is not
    asked. *)
Theorem mapping_unhashable_key (self : BaseRow) (k : key) (w : list warning) :
  hash_key k = None ->
  _get_by_key_impl_mapping self k w = (Raise (Exn TypeError (AText "unhashable type")), w).
Proof.
  intros Hh. rewrite get_by_key_impl_mapping_eq. cbv zeta.
  unfold dict_getitem. rewrite Hh. reflexivity.
Qed.

Lemma mapping_unhashable_key_witness :
  RowMapping__getitem__ (Examples.row_id_name KEY_OBJECTS_NO_WARN)
    (KSlice (Slice None None None)) []
  = (Raise (Exn TypeError (AText "unhashable type")), []) /\
  __getitem__ (Examples.row_id_name KEY_OBJECTS_NO_WARN) (KSlice (Slice None None None)) []
  = (Return (VTuple [VInt 1; VStr "Alice"]), []).
Proof.
  split; [|reflexivity].
  exact (mapping_unhashable_key (Examples.row_id_name KEY_OBJECTS_NO_WARN)
           (KSlice (Slice None None None)) [] eq_refl).
Defined.

(** ** Further properties of pickling *)

Lemma row_eta (self : BaseRow) :
  MkRow (_parent self) (_data self) (_keymap self) (_key_style self) = self.
Proof. destruct self; reflexivity. Qed.

Lemma setstate_getstate (self : BaseRow) :
  __setstate__ (__getstate__ self)
  = Return (MkRow (_parent self) (_data self) (ResultMetaData._keymap (_parent self))
              (_key_style self)).
Proof.
  unfold __setstate__, state_getitem, __getstate__.
  rewrite lookup_insert_eq.
  rewrite (lookup_insert_ne _ "_parent" "_data") by discriminate.
  rewrite lookup_insert_eq.
  rewrite (lookup_insert_ne _ "_parent" "_key_style") by discriminate.
  rewrite (lookup_insert_ne _ "_data" "_key_style") by discriminate.
  rewrite lookup_insert_eq. reflexivity.
Qed.

(** X8: unpickling gives back the very same row exactly when the row's
    key map was its parent's; in any case the row that comes back
    pickles to the same state again. *)
Theorem pickle_exact (self : BaseRow) :
  (rowproxy_reconstructor (__reduce__ self) = Return self <->
   _keymap self = ResultMetaData._keymap (_parent self)) /\
  (forall restored,
      rowproxy_reconstructor (__reduce__ self) = Return restored ->
      __reduce__ restored = __reduce__ self /\
      rowproxy_reconstructor (__reduce__ restored) = Return restored).
Proof.
  unfold rowproxy_reconstructor, __reduce__. split.
  - rewrite setstate_getstate. split.
    + intros [= H]. rewrite <- H at 1. reflexivity.
    + intros <-. rewrite row_eta. reflexivity.
  - intros restored. rewrite setstate_getstate. intros [= <-].
    split; [reflexivity|]. rewrite setstate_getstate. reflexivity.
Qed.

(** X9: [__setstate__] reads the entries [_parent], [_data] and
    [_key_style] and nothing else: states that agree on the three give
    the same result, and a state that lacks one of them ends in the
    [KeyError] of the first one missing, in the order of the reads:
    [_parent]; then [_data]; then, once [_parent] holds a result metadata
    whose key map can be taken, [_key_style].  A [_parent] that is not a
    result metadata is an [AttributeError] before [_key_style] is
    looked at. *)
Theorem setstate_reads_three_entries (s1 s2 : gmap string slot) :
  (s1 !! "_parent" = s2 !! "_parent" ->
   s1 !! "_data" = s2 !! "_data" ->
   s1 !! "_key_style" = s2 !! "_key_style" ->
   __setstate__ s1 = __setstate__ s2) /\
  (s1 !! "_parent" = None ->
   __setstate__ s1 = Raise (Exn KeyError (AKey (KStr "_parent")))) /\
  (is_Some (s1 !! "_parent") -> s1 !! "_data" = None ->
   __setstate__ s1 = Raise (Exn KeyError (AKey (KStr "_data")))) /\
  (forall parent,
      s1 !! "_parent" = Some (SParent parent) -> is_Some (s1 !! "_data") ->
      s1 !! "_key_style" = None ->
      __setstate__ s1 = Raise (Exn KeyError (AKey (KStr "_key_style")))) /\
  (forall sp,
      s1 !! "_parent" = Some sp -> (forall parent, sp <> SParent parent) ->
      is_Some (s1 !! "_data") ->
      __setstate__ s1 = Raise (Exn AttributeError (AText "_keymap"))).
Proof.
  unfold __setstate__, state_getitem. split; [|split; [|split; [|split]]].
  - intros -> -> ->. reflexivity.
  - intros ->. reflexivity.
  - intros [x ->] ->. reflexivity.
  - intros parent -> [y ->] ->. reflexivity.
  - intros sp -> Hsp [y ->]. destruct sp as [parent| |]; [|reflexivity|reflexivity].
    destruct (Hsp parent eq_refl).
Qed.

Lemma setstate_reads_three_entries_witness :
  __setstate__ (<["extra" := SKeyStyle KEY_INTEGER_ONLY]>
                  (__getstate__ (Examples.row_id_name KEY_OBJECTS_ONLY)))
  = __setstate__ (__getstate__ (Examples.row_id_name KEY_OBJECTS_ONLY)) /\
  __setstate__ (delete "_data" (__getstate__ (Examples.row_id_name KEY_OBJECTS_ONLY)))
  = Raise (Exn KeyError (AKey (KStr "_data"))) /\
  __setstate__ (delete "_key_style" (__getstate__ (Examples.row_id_name KEY_OBJECTS_ONLY)))
  = Raise (Exn KeyError (AKey (KStr "_key_style"))) /\
  __setstate__ (<["_parent" := SData []]> (<["_data" := SData []]> ∅))
  = Raise (Exn AttributeError (AText "_keymap")).
Proof.
  split; [|split; [|split]].
  - apply (proj1 (setstate_reads_three_entries _ _)); vm_compute; reflexivity.
  - apply (proj1 (proj2 (proj2 (setstate_reads_three_entries _ ∅)))).
    + eexists. vm_compute. reflexivity.
    + vm_compute. reflexivity.
  - apply (proj1 (proj2 (proj2 (proj2 (setstate_reads_three_entries _ ∅))))
             Examples.meta_id_name).
    + vm_compute. reflexivity.
    + eexists. vm_compute. reflexivity.
    + vm_compute. reflexivity.
  - apply (proj2 (proj2 (proj2 (proj2 (setstate_reads_three_entries _ ∅)))) (SData [])).
    + vm_compute. reflexivity.
    + intros parent. discriminate.
    + eexists. vm_compute. reflexivity.
Defined.

Lemma pickle_exact_witness :
  rowproxy_reconstructor (__reduce__ (Examples.row_id_name KEY_OBJECTS_BUT_WARN))
  = Return (Examples.row_id_name KEY_OBJECTS_BUT_WARN).
Proof.
  apply (proj1 (pickle_exact (Examples.row_id_name KEY_OBJECTS_BUT_WARN))). reflexivity.
Defined.

(** ** Further properties of construction and filtering *)

Lemma apply_processors_all_none (ps : list (option processor)) :
  forall d : list pyval,
    Forall (fun p => p = None) ps -> (length d <= length ps)%nat ->
    apply_processors ps d = Return d.
Proof.
  induction ps as [|p ps IH]; intros [|v d] Hall Hlen; simpl in *; try reflexivity; [lia|].
  inversion Hall as [|? ? -> Hall']; subst. simpl.
  rewrite IH by (auto; lia). reflexivity.
Qed.

Lemma apply_processors_first_failure (ps : list (option processor)) :
  forall (d : list pyval) (i : nat) (p : option processor) (v : pyval) (e : exn),
    ps !! i = Some p -> d !! i = Some v -> run_processor p v = Raise e ->
    (forall j q u, (j < i)%nat -> ps !! j = Some q -> d !! j = Some u ->
                   exists x, run_processor q u = Return x) ->
    apply_processors ps d = Raise e.
Proof.
  induction ps as [|q ps IH]; intros [|u d] i p v e Hp Hv Hrun Hbefore; try discriminate.
  destruct i as [|i]; simpl in *.
  - injection Hp as <-. injection Hv as <-. rewrite Hrun. reflexivity.
  - destruct (Hbefore 0%nat q u ltac:(lia) eq_refl eq_refl) as [x ->]. simpl.
    rewrite (IH d i p v e Hp Hv Hrun); [reflexivity|].
    intros j q' u' Hj Hq' Hu'. apply (Hbefore (S j) q' u'); [lia|exact Hq'|exact Hu'].
Qed.

Lemma apply_processors_then (fs : list (option processor)) :
  forall (gs : list (option processor)) (d mid out : list pyval),
    apply_processors fs d = Return mid ->
    apply_processors gs mid = Return out ->
    apply_processors (zip_with then_processor fs gs) d = Return out.
Proof.
  induction fs as [|f fs IH]; intros gs d mid out Hf Hg.
  - simpl in Hf. injection Hf as <-. destruct gs; simpl in Hg; injection Hg as <-;
      destruct d; reflexivity.
  - destruct d as [|v d].
    + simpl in Hf. injection Hf as <-. destruct gs; simpl in Hg; injection Hg as <-;
        reflexivity.
    + simpl in Hf.
      destruct (run_processor f v) as [x|] eqn:Ex; simpl in Hf; [|discriminate].
      destruct (apply_processors fs d) as [rest|] eqn:Er; simpl in Hf; [|discriminate].
      injection Hf as <-.
      destruct gs as [|g gs]; [simpl in Hg; injection Hg as <-; reflexivity|].
      simpl in Hg.
      destruct (run_processor g x) as [y|] eqn:Ey; simpl in Hg; [|discriminate].
      destruct (apply_processors gs rest) as [out'|] eqn:Eo; simpl in Hg; [|discriminate].
      injection Hg as <-.
      simpl. rewrite Ex. simpl. rewrite Ey. simpl.
      rewrite (IH gs d rest out' Er Eo). reflexivity.
Qed.

(** X10: filtering with no filters leaves the row as it is: for [None],
    for an empty list, and for a list of [None] entries at least as long
    as the row, [_filter_on_values] returns the row itself. *)
Theorem filter_on_values_identity (self : BaseRow)
    (filters : option (list (option processor))) :
  (forall fs, filters = Some fs ->
              Forall (fun p => p = None) fs /\ (fs = [] \/ length (_data self) <= length fs)%nat) ->
  _filter_on_values self filters = Return self.
Proof.
  intros Hf. unfold _filter_on_values, __init__.
  destruct filters as [[|f fs]|]; cbn [truthy from_option id].
  - cbn [result_bind]. rewrite row_eta. reflexivity.
  - destruct (Hf _ eq_refl) as [Hall [?|Hlen]]; [discriminate|].
    rewrite (apply_processors_all_none _ _ Hall Hlen).
    cbn [result_bind]. rewrite row_eta. reflexivity.
  - cbn [result_bind]. rewrite row_eta. reflexivity.
Qed.

Lemma filter_on_values_identity_witness :
  _filter_on_values (Examples.row_id_name KEY_OBJECTS_ONLY) (Some [None; None; None])
  = Return (Examples.row_id_name KEY_OBJECTS_ONLY).
Proof.
  apply filter_on_values_identity. intros fs [= <-]. split.
  - repeat constructor.
  - right. simpl. lia.
Defined.

(** X11: two filterings in a row can be fused: when a row is filtered
    through [fs] and the result through [gs], both non-empty, filtering
    the row once through the pairwise compositions gives the same row. *)
Theorem filter_on_values_fuse (self r1 r2 : BaseRow) (fs gs : list (option processor)) :
  fs <> [] -> gs <> [] ->
  _filter_on_values self (Some fs) = Return r1 ->
  _filter_on_values r1 (Some gs) = Return r2 ->
  _filter_on_values self (Some (zip_with then_processor fs gs)) = Return r2.
Proof.
  intros Hfs Hgs. unfold _filter_on_values, __init__.
  destruct fs as [|f fs]; [congruence|]. destruct gs as [|g gs]; [congruence|].
  cbn [truthy from_option id zip_with].
  destruct (apply_processors (f :: fs) (_data self)) as [mid|] eqn:Hmid; [|discriminate].
  intros [= <-]. cbn [_parent _data _keymap _key_style result_bind].
  destruct (apply_processors (g :: gs) mid) as [out|] eqn:Hout; [|discriminate].
  intros [= <-].
  change (then_processor f g :: zip_with then_processor fs gs)
    with (zip_with then_processor (f :: fs) (g :: gs)).
  rewrite (apply_processors_then _ _ _ _ _ Hmid Hout). reflexivity.
Qed.

Lemma filter_on_values_fuse_witness :
  _filter_on_values (Examples.row_id_id KEY_OBJECTS_ONLY)
    (Some (zip_with then_processor [Some Examples.incr; None] [Some Examples.incr; Some Examples.incr]))
  = Return (MkRow Examples.meta_id_id [VInt 3; VInt 3] Examples.keymap_id_id KEY_OBJECTS_ONLY).
Proof.
  apply (filter_on_values_fuse (Examples.row_id_id KEY_OBJECTS_ONLY)
           (MkRow Examples.meta_id_id [VInt 2; VInt 2] Examples.keymap_id_id KEY_OBJECTS_ONLY)
           _ [Some Examples.incr; None] [Some Examples.incr; Some Examples.incr]);
    [discriminate|discriminate|reflexivity|reflexivity].
Defined.

(** X12: the constructor does not check the two lengths against each
    other: with a non-empty processor sequence the row has as many values
    as the shorter of processors and raw values, so raw values past the
    last processor are dropped and reading their position is an
    [IndexError]. *)
Theorem init_length_is_shorter (parent : ResultMetaData.t) (ps : list (option processor))
    (km : gmap hkey rec) (ks : key_style) (raw : list pyval) (self : BaseRow) :
  ps <> [] ->
  __init__ parent (Some ps) km ks raw = Return self ->
  __len__ self = Z.of_nat (Nat.min (length ps) (length raw)) /\
  (forall i : nat, (length ps <= i)%nat ->
     _get_by_int_impl self (KInt (Z.of_nat i))
     = Raise (Exn IndexError (AText "tuple index out of range"))).
Proof.
  intros Hps. unfold __init__. destruct ps as [|p ps]; [congruence|].
  cbn [truthy from_option id].
  destruct (apply_processors (p :: ps) raw) as [out|] eqn:Hout; [|discriminate].
  intros [= <-]. unfold __len__, _get_by_int_impl. cbn [_data tuple_subscript].
  pose proof (apply_processors_length _ _ _ Hout) as Hl. split.
  - rewrite Hl. reflexivity.
  - intros i Hi. apply tuple_getitem_out_of_range. right. lia.
Qed.

Lemma init_length_is_shorter_witness :
  exists self,
    __init__ Examples.meta_id_name (Some [Some Examples.incr]) Examples.keymap_id_name
      KEY_OBJECTS_BUT_WARN [VInt 1; VStr "Alice"] = Return self /\
    __len__ self = 1 /\
    _get_by_int_impl self (KInt 1) = Raise (Exn IndexError (AText "tuple index out of range")).
Proof.
  eexists. split; [reflexivity|].
  destruct (init_length_is_shorter Examples.meta_id_name [Some Examples.incr]
              Examples.keymap_id_name KEY_OBJECTS_BUT_WARN [VInt 1; VStr "Alice"] _
              ltac:(discriminate) eq_refl) as [Hl Hget].
  split; [exact Hl|]. exact (Hget 1%nat ltac:(simpl; lia)).
Defined.

(** X13: when a processor raises, the constructor raises that error: the
    error of the first position whose processor fails, the processors
    before it having returned; [_filter_on_values] behaves alike. *)
Theorem init_first_failure (parent : ResultMetaData.t) (ps : list (option processor))
    (km : gmap hkey rec) (ks : key_style) (raw : list pyval)
    (i : nat) (p : option processor) (v : pyval) (e : exn) :
  ps !! i = Some p -> raw !! i = Some v -> run_processor p v = Raise e ->
  (forall j q u, (j < i)%nat -> ps !! j = Some q -> raw !! j = Some u ->
                 exists x, run_processor q u = Return x) ->
  __init__ parent (Some ps) km ks raw = Raise e /\
  _filter_on_values (MkRow parent raw km ks) (Some ps) = Raise e.
Proof.
  intros Hp Hv Hrun Hbefore. unfold _filter_on_values, __init__.
  destruct ps as [|q ps]; [discriminate|]. cbn [truthy from_option id _data].
  rewrite (apply_processors_first_failure _ _ _ _ _ _ Hp Hv Hrun Hbefore).
  split; reflexivity.
Qed.

Lemma init_first_failure_witness :
  __init__ Examples.meta_id_name (Some [Some Examples.incr; Some Examples.incr])
    Examples.keymap_id_name KEY_OBJECTS_BUT_WARN [VInt 1; VStr "Alice"]
  = Raise (Exn TypeError (AText "an integer is required")).
Proof.
  refine (proj1 (init_first_failure Examples.meta_id_name
                   [Some Examples.incr; Some Examples.incr] Examples.keymap_id_name
                   KEY_OBJECTS_BUT_WARN [VInt 1; VStr "Alice"] 1%nat (Some Examples.incr)
                   (VStr "Alice") _ eq_refl eq_refl eq_refl _)).
  intros [|j] q u Hj; [|lia]. intros [= <-] [= <-]. eexists. reflexivity.
Defined.

(** ** The mapping view, fields and containment *)

(** X14: [_mapping] always returns; the view has the row's parent,
    values and key map and the key style [KEY_OBJECTS_ONLY], whatever the
    row's own.  It answers a key not of an integer type, and attribute
    access, exactly as the row's mapping accessor does, and refuses an
    integer key that the key map resolves with a [KeyError]. *)
Theorem mapping_view (self : BaseRow) :
  exists m,
    _mapping self = Return m /\
    _parent m = _parent self /\ _data m = _data self /\ _keymap m = _keymap self /\
    _key_style m = KEY_OBJECTS_ONLY /\
    RowMapping__len__ m = __len__ self /\
    (forall k w, int_in_mro k = false ->
                 RowMapping__getitem__ m k w = _get_by_key_impl_mapping self k w) /\
    (forall name w, __getattr__ m name w = __getattr__ self name w) /\
    (forall k h r i w,
        int_in_mro k = true -> hash_key k = Some h ->
        _keymap self !! h = Some r -> MD_INDEX r = Some i ->
        RowMapping__getitem__ m k w = (Raise (Exn KeyError (AKey k)), w)).
Proof.
  eexists. split; [reflexivity|]. cbn [_parent _data _keymap _key_style].
  assert (forall k w, int_in_mro k = false ->
            _get_by_key_impl_mapping
              (MkRow (_parent self) (_data self) (_keymap self) RowMapping_default_key_style) k w
            = _get_by_key_impl_mapping self k w) as Hsame.
  { intros k w Hint. rewrite !get_by_key_impl_mapping_eq. cbv zeta.
    cbn [_parent _data _keymap _key_style]. rewrite Hint, !andb_false_r. reflexivity. }
  repeat split.
  - exact Hsame.
  - intros name w. unfold __getattr__, try_except. rewrite Hsame by reflexivity. reflexivity.
  - intros k h r i w Hint Hh Hkm Hmd. unfold RowMapping__getitem__.
    rewrite get_by_key_impl_mapping_eq. cbv zeta. cbn [_parent _data _keymap _key_style].
    unfold dict_getitem. rewrite Hh, Hkm, Hmd, Hint. reflexivity.
Qed.

Lemma mapping_view_witness :
  exists m,
    _mapping (Examples.row_id_name KEY_OBJECTS_NO_WARN) = Return m /\
    RowMapping__getitem__ m (KInt 0) [] = (Raise (Exn KeyError (AKey (KInt 0))), []).
Proof.
  destruct (mapping_view (Examples.row_id_name KEY_OBJECTS_NO_WARN))
    as (m & Hm & _ & _ & _ & _ & _ & _ & _ & Hint).
  exists m. split; [exact Hm|].
  exact (Hint (KInt 0) (HInt 0) (Rec (Some 0) (KStr "id")) 0 [] eq_refl eq_refl eq_refl eq_refl).
Defined.

(** X15: [_fields] lists exactly the names of the parent's [keys] that
    are not [None], in their order; it is what iterating the mapping
    view yields, and it is the whole of [keys] when every column is
    named. *)
Theorem fields_are_named_keys (self : BaseRow) :
  (forall name, name ∈ _fields self <-> Some name ∈ ResultMetaData.keys (_parent self)) /\
  Some <$> _fields self = filter is_Some (ResultMetaData.keys (_parent self)) /\
  (Forall is_Some (ResultMetaData.keys (_parent self)) ->
   Some <$> _fields self = ResultMetaData.keys (_parent self)) /\
  (forall m, _mapping self = Return m -> RowMapping__iter__ m = _fields self).
Proof.
  unfold _fields, RowMapping__iter__.
  assert (forall l : list (option string),
            Some <$> omap (fun k : option string => k) l = filter is_Some l) as Hfilter.
  { induction l as [|[x|] l IH]; simpl.
    - reflexivity.
    - rewrite filter_cons_True by eauto. simpl. f_equal. exact IH.
    - rewrite filter_cons_False by (intros [? [=]]). exact IH. }
  split; [|split; [|split]].
  - intros name. rewrite list_elem_of_omap. split.
    + intros (x & Hx & ->). exact Hx.
    + intros Hx. eauto.
  - apply Hfilter.
  - intros Hall. rewrite Hfilter.
    induction Hall as [|x l Hx Hall IH]; [reflexivity|].
    rewrite filter_cons_True by exact Hx. f_equal. exact IH.
  - intros m [= <-]. reflexivity.
Qed.

Lemma fields_are_named_keys_witness :
  _fields (MkRow (ResultMetaData.Make [Some "id"; None; Some "name"] ∅ Examples.no_fallback)
             [VInt 1; VInt 7; VStr "Alice"] ∅ KEY_OBJECTS_BUT_WARN)
  = ["id"; "name"] /\
  Some <$> _fields (Examples.row_id_name KEY_OBJECTS_BUT_WARN)
  = ResultMetaData.keys Examples.meta_id_name.
Proof.
  split; [reflexivity|].
  apply (proj1 (proj2 (proj2 (fields_are_named_keys (Examples.row_id_name KEY_OBJECTS_BUT_WARN))))).
  repeat constructor; eexists; reflexivity.
Defined.

Lemma py_in_spec (x : pyval) (t : list pyval) :
  py_in x t = true <-> exists (i : nat) (v : pyval), t !! i = Some v /\ py_eq v x = true.
Proof.
  unfold py_in. rewrite existsb_exists. split.
  - intros (v & Hin & Heq). apply list_elem_of_In, list_elem_of_lookup in Hin as [i Hi]. eauto.
  - intros (i & v & Hi & Heq). exists v. split; [|exact Heq].
    apply list_elem_of_In, list_elem_of_lookup. eauto.
Qed.

Lemma tuple_getitem_Return (t : list pyval) (z : Z) (v : pyval) :
  tuple_getitem t z = Return v -> exists i : nat, t !! i = Some v.
Proof.
  unfold tuple_getitem. destruct (_ || _); [discriminate|].
  destruct (t !! _) as [u|] eqn:E; [|discriminate]. intros [= <-]. eauto.
Qed.

(** X16: [x in row] looks at the values only: it holds exactly when some
    stored value is [==] to [x]; in particular every value that an
    integer key reads is in the row. *)
Theorem contains_is_by_value (self : BaseRow) (x : pyval) :
  (Row__contains__ self x = true <->
   exists (i : nat) (v : pyval), _data self !! i = Some v /\ py_eq v x = true) /\
  (forall z, _get_by_int_impl self (KInt z) = Return x -> Row__contains__ self x = true) /\
  (_data self = [] -> Row__contains__ self x = false).
Proof.
  unfold Row__contains__. split; [apply py_in_spec|]. split.
  - intros z Hz. apply py_in_spec.
    destruct (tuple_getitem_Return _ _ _ Hz) as [i Hi].
    exists i, x. split; [exact Hi|apply py_eq_refl].
  - intros ->. reflexivity.
Qed.

Lemma contains_is_by_value_witness :
  Row__contains__ (Examples.row_id_name KEY_OBJECTS_BUT_WARN) (VStr "Alice") = true /\
  Row__contains__ (Examples.row_id_name KEY_OBJECTS_BUT_WARN) (VStr "name") = false.
Proof.
  split; [|reflexivity].
  exact (proj1 (proj2 (contains_is_by_value (Examples.row_id_name KEY_OBJECTS_BUT_WARN)
                         (VStr "Alice"))) (-1) eq_refl).
Defined.

(** X17: the view returned by [RowMapping.values] has the length of the
    row and contains what the row contains; it compares equal to a list
    and to a tuple of the same values alike, because it converts the
    other operand with [list]; an operand that cannot be iterated is a
    [TypeError]. *)
Theorem values_view (self : BaseRow) :
  let view := RowMapping_values self in
  ROMappingView.__len__ view = RowMapping__len__ self /\
  ROMappingView.__iter__ view = _values_impl self /\
  (forall x, ROMappingView.__contains__ view x = Row__contains__ self x) /\
  ROMappingView.__eq__ view (VList (_data self)) = Return (VBool true) /\
  ROMappingView.__eq__ view (VTuple (_data self)) = Return (VBool true) /\
  ROMappingView.__ne__ view (VTuple (_data self)) = Return (VBool false) /\
  (forall z, ROMappingView.__eq__ view (VInt z)
             = Raise (Exn TypeError (AText "object is not iterable"))) /\
  ROMappingView.__eq__ view VNone = Raise (Exn TypeError (AText "object is not iterable")).
Proof.
  unfold RowMapping_values, RowMapping_values_impl, ROMappingView.__len__,
    ROMappingView.__iter__, ROMappingView.__contains__, ROMappingView.__eq__,
    ROMappingView.__ne__, RowMapping__len__, Row__contains__, _values_impl, __iter__.
  cbn [ROMappingView._items py_list result_bind].
  rewrite py_eq_refl. repeat split.
Qed.

(** ** Comparison *)

Lemma py_eq_sym : forall a b, py_eq a b = py_eq b a.
Proof.
  fix IH 1. intros [ | x | x | x | l | l] [ | y | y | y | l' | l']; simpl;
    try reflexivity; try apply Z.eqb_sym; try apply String.eqb_sym.
  - revert l'. induction l as [|u l IHl]; intros [|u' l']; try reflexivity.
    rewrite (IH u u'), IHl. reflexivity.
  - revert l'. induction l as [|u l IHl]; intros [|u' l']; try reflexivity.
    rewrite (IH u u'), IHl. reflexivity.
Qed.

Lemma cmp_Z_swap (op : cmp_op) (x y : Z) : cmp_Z (cmp_swap op) y x = cmp_Z op x y.
Proof. destruct op; simpl; try reflexivity; rewrite Z.eqb_sym; reflexivity. Qed.

Lemma cmp_str_swap (op : cmp_op) (x y : string) : cmp_str (cmp_swap op) y x = cmp_str op x y.
Proof.
  unfold cmp_str. destruct op; simpl; rewrite (String.compare_antisym x y);
    destruct (String.compare y x); reflexivity.
Qed.

Lemma py_richcompare_eq (a b : pyval) : py_richcompare Py_EQ a b = Return (py_eq a b).
Proof. destruct a; reflexivity. Qed.

Lemma py_richcompare_ne (a b : pyval) : py_richcompare Py_NE a b = Return (negb (py_eq a b)).
Proof. destruct a; reflexivity. Qed.

Lemma py_richcompare_swap :
  forall (a : pyval) (op : cmp_op) (b : pyval),
    py_richcompare (cmp_swap op) b a = py_richcompare op a b.
Proof.
  fix IH 1. intros a op b.
  assert (forall l l' : list pyval,
            (forall x, In x l -> forall y, py_richcompare (cmp_swap op) y x = py_richcompare op x y) ->
            (fix go (l l' : list pyval) : result bool :=
               match l, l' with
               | x :: l0, y :: l0' =>
                   if py_eq x y then go l0 l0' else py_richcompare (cmp_swap op) x y
               | _, _ => Return (cmp_Z (cmp_swap op) (Z.of_nat (length l)) (Z.of_nat (length l')))
               end) l' l
            = (fix go (l l' : list pyval) : result bool :=
                 match l, l' with
                 | x :: l0, y :: l0' =>
                     if py_eq x y then go l0 l0' else py_richcompare op x y
                 | _, _ => Return (cmp_Z op (Z.of_nat (length l)) (Z.of_nat (length l')))
                 end) l l') as Hseq.
  { induction l as [|x l IHl]; intros [|y l'] Hel.
    - rewrite cmp_Z_swap. reflexivity.
    - rewrite cmp_Z_swap. reflexivity.
    - rewrite cmp_Z_swap. reflexivity.
    - rewrite (py_eq_sym y x). destruct (py_eq x y).
      + apply IHl. intros x' Hx'. apply Hel. right. exact Hx'.
      + apply Hel. left. reflexivity. }
  destruct op;
    try (change (py_richcompare (cmp_swap Py_EQ) b a) with (py_richcompare Py_EQ b a);
         rewrite !py_richcompare_eq, py_eq_sym; reflexivity);
    try (change (py_richcompare (cmp_swap Py_NE) b a) with (py_richcompare Py_NE b a);
         rewrite !py_richcompare_ne, py_eq_sym; reflexivity).
  all: destruct a as [ | x | x | x | l | l], b as [ | y | y | y | l' | l']; simpl;
    try reflexivity;
    try (f_equal; apply (cmp_Z_swap Py_LT));
    try (f_equal; apply (cmp_Z_swap Py_LE));
    try (f_equal; apply (cmp_Z_swap Py_GT));
    try (f_equal; apply (cmp_Z_swap Py_GE));
    try (f_equal; apply (cmp_str_swap Py_LT));
    try (f_equal; apply (cmp_str_swap Py_LE));
    try (f_equal; apply (cmp_str_swap Py_GT));
    try (f_equal; apply (cmp_str_swap Py_GE)).
  all: apply (Hseq l l'); clear Hseq; induction l as [|u l IHl]; [intros ? []|];
    intros x' [<-|Hin] y'; [apply IH|apply IHl; exact Hin].
Qed.

Lemma py_richcompare_prefix (op : cmp_op) (l rest : list pyval) :
  py_richcompare op (VTuple l) (VTuple (l ++ rest))
  = Return (cmp_Z op 0 (Z.of_nat (length rest))).
Proof.
  destruct op.
  3: { rewrite py_richcompare_eq. simpl. f_equal.
       induction l as [|x l IHl]; simpl.
       - destruct rest; reflexivity.
       - rewrite py_eq_refl. exact IHl. }
  3: { rewrite py_richcompare_ne. simpl. do 2 f_equal.
       induction l as [|x l IHl]; simpl.
       - destruct rest; reflexivity.
       - rewrite py_eq_refl. exact IHl. }
  all: simpl; induction l as [|x l IHl]; simpl;
    [destruct rest; reflexivity | rewrite py_eq_refl; exact IHl].
Qed.


(** X19: the ordering operators mirror each other between rows:
    [r1 < r2] is [r2 > r1] and [r1 <= r2] is [r2 >= r1], as a value and
    as a [TypeError] alike. *)
Theorem ordering_mirror (r1 r2 : BaseRow) :
  __lt__ r1 (ORow r2) = __gt__ r2 (ORow r1) /\
  __le__ r1 (ORow r2) = __ge__ r2 (ORow r1) /\
  __gt__ r1 (ORow r2) = __lt__ r2 (ORow r1) /\
  __ge__ r1 (ORow r2) = __le__ r2 (ORow r1).
Proof.
  unfold __lt__, __le__, __gt__, __ge__, _op, operator_lt, operator_le, operator_gt,
    operator_ge, operator_cmp.
  repeat split.
  - rewrite <- (py_richcompare_swap _ Py_LT). reflexivity.
  - rewrite <- (py_richcompare_swap _ Py_LE). reflexivity.
  - rewrite <- (py_richcompare_swap _ Py_GT). reflexivity.
  - rewrite <- (py_richcompare_swap _ Py_GE). reflexivity.
Qed.

(** X20: ordering a row against a row that extends it never raises,
    whatever the values are, [None] included: with the same values
    [<=] and [>=] hold and [<] and [>] do not; against a proper extension
    [<] and [<=] hold and [>] and [>=] do not. *)
Theorem ordering_prefix (r1 r2 : BaseRow) (rest : list pyval) :
  _data r2 = _data r1 ++ rest ->
  __le__ r1 (ORow r2) = Return (VBool true) /\
  __gt__ r1 (ORow r2) = Return (VBool false) /\
  (rest = [] ->
   __ge__ r1 (ORow r2) = Return (VBool true) /\ __lt__ r1 (ORow r2) = Return (VBool false)) /\
  (rest <> [] ->
   __lt__ r1 (ORow r2) = Return (VBool true) /\ __ge__ r1 (ORow r2) = Return (VBool false)).
Proof.
  intros Hd.
  unfold __lt__, __le__, __gt__, __ge__, _op, operator_lt, operator_le, operator_gt,
    operator_ge, operator_cmp, __iter__.
  rewrite Hd, !py_richcompare_prefix. cbn [result_bind cmp_Z].
  destruct rest as [|x rest].
  - repeat split; congruence.
  - repeat split; try discriminate; try congruence.
Qed.

Lemma ordering_prefix_witness :
  __le__ (MkRow Examples.meta_id_name [VNone; VStr "a"] ∅ KEY_OBJECTS_ONLY)
    (ORow (MkRow Examples.meta_id_id [VNone; VStr "a"] ∅ KEY_INTEGER_ONLY))
  = Return (VBool true) /\
  __lt__ (MkRow Examples.meta_id_name [VNone] ∅ KEY_OBJECTS_ONLY)
    (ORow (MkRow Examples.meta_id_id [VNone; VInt 1] ∅ KEY_INTEGER_ONLY))
  = Return (VBool true) /\
  __lt__ (MkRow Examples.meta_id_name [VNone] ∅ KEY_OBJECTS_ONLY)
    (ORow (MkRow Examples.meta_id_id [VInt 1] ∅ KEY_INTEGER_ONLY))
  = Raise (Exn TypeError (AText "ordering not supported between these instances")).
Proof.
  split; [|split; [|reflexivity]].
  - exact (proj1 (ordering_prefix
                    (MkRow Examples.meta_id_name [VNone; VStr "a"] ∅ KEY_OBJECTS_ONLY)
                    (MkRow Examples.meta_id_id [VNone; VStr "a"] ∅ KEY_INTEGER_ONLY)
                    [] eq_refl)).
  - exact (proj1 (proj2 (proj2 (proj2 (ordering_prefix
                    (MkRow Examples.meta_id_name [VNone] ∅ KEY_OBJECTS_ONLY)
                    (MkRow Examples.meta_id_id [VNone; VInt 1] ∅ KEY_INTEGER_ONLY)
                    [VInt 1] eq_refl))) ltac:(discriminate))).
Defined.

(** ** The sequence methods *)

Lemma getattr_eq (self : BaseRow) (name : string) (w : list warning) :
  __getattr__ self name w =
    match _get_by_key_impl_mapping self (KStr name) w with
    | (Return v, w') => (Return v, w')
    | (Raise e, w') =>
        if isinstance_KeyError e then (Raise (Exn AttributeError (exn_arg0 e)), w')
        else (Raise e, w')
    end.
Proof. reflexivity. Qed.

(** X21: [row.count] and [row.index] give way to a column of that name:
    when the parent has the key, the accessor is the value of that
    column, read through attribute access; when it has not, the accessor
    is the sequence method, and neither the key map nor the resolver is
    asked. *)
Theorem special_name_accessor_dispatch (_has_key : ResultMetaData.t -> key -> bool)
    (name : string) (self : BaseRow) (w : list warning) :
  (_has_key (_parent self) (KStr name) = false ->
   _special_name_accessor _has_key name self w = (Return (SpecialMethod name), w)) /\
  (_has_key (_parent self) (KStr name) = true ->
   forall r i v,
     _keymap self !! HStr name = Some r -> MD_INDEX r = Some i ->
     tuple_getitem (_data self) i = Return v ->
     _special_name_accessor _has_key name self w = (Return (SpecialValue v), w)) /\
  (_has_key (_parent self) (KStr name) = true ->
   forall r,
     _keymap self !! HStr name = Some r -> MD_INDEX r = None ->
     _special_name_accessor _has_key name self w
     = (Raise (Exn InvalidRequestError (AKey (md_lookup_key r))), w)).
Proof.
  unfold _special_name_accessor. split; [|split].
  - intros ->. reflexivity.
  - intros -> r i v Hkm Hmd Hv.
    assert (dict_getitem (_keymap self) (KStr name) = Return r) as Hget
      by (unfold dict_getitem; simpl; rewrite Hkm; reflexivity).
    unfold bind. rewrite getattr_eq, get_by_key_impl_mapping_eq.
    cbv zeta. rewrite Hget, Hmd, andb_false_r, Hv. reflexivity.
  - intros -> r Hkm Hmd.
    assert (dict_getitem (_keymap self) (KStr name) = Return r) as Hget
      by (unfold dict_getitem; simpl; rewrite Hkm; reflexivity).
    unfold bind. rewrite getattr_eq, get_by_key_impl_mapping_eq.
    cbv zeta. rewrite Hget, Hmd. reflexivity.
Qed.

Lemma special_name_accessor_dispatch_witness :
  _special_name_accessor Examples.has_key "count" (Examples.row_id_name KEY_OBJECTS_BUT_WARN) []
  = (Return (SpecialMethod "count"), []) /\
  _special_name_accessor Examples.has_key "name" (Examples.row_id_name KEY_OBJECTS_BUT_WARN) []
  = (Return (SpecialValue (VStr "Alice")), []).
Proof.
  split.
  - apply (proj1 (special_name_accessor_dispatch Examples.has_key "count"
                    (Examples.row_id_name KEY_OBJECTS_BUT_WARN) [])).
    vm_compute. reflexivity.
  - apply (proj1 (proj2 (special_name_accessor_dispatch Examples.has_key "name"
                    (Examples.row_id_name KEY_OBJECTS_BUT_WARN) []))
             ltac:(vm_compute; reflexivity) (Rec (Some 1) (KStr "name")) 1 (VStr "Alice"));
      vm_compute; reflexivity.
Defined.

(** X22: the sequence method [count] counts the stored values that are
    [==] to its argument, each occurrence once: it is zero on a row
    without values, one or zero on a row of one value according to
    whether that value is [==] to the argument, and the count over values
    put one after the other is the sum of the counts; so it lies between
    zero and the length of the row, and is positive exactly when the
    value is in the row. *)
Theorem count_occurrences (self : BaseRow) (x : pyval) :
  0 <= Sequence_count self x <= __len__ self /\
  (0 < Sequence_count self x <-> Row__contains__ self x = true) /\
  (_data self = [] -> Sequence_count self x = 0) /\
  (forall v, _data self = [v] -> Sequence_count self x = if py_eq v x then 1 else 0) /\
  (forall r1 r2 : BaseRow,
      _data self = _data r1 ++ _data r2 ->
      Sequence_count self x = Sequence_count r1 x + Sequence_count r2 x).
Proof.
  split; [|split; [|split; [|split]]].
  - unfold Sequence_count, __len__, __iter__.
    induction (_data self) as [|v l IH]; simpl; [lia|].
    destruct (py_eq v x) eqn:E.
    + rewrite filter_cons_True by exact E. simpl. lia.
    + rewrite filter_cons_False by (rewrite E; discriminate). lia.
  - unfold Sequence_count, Row__contains__, py_in, __iter__.
    induction (_data self) as [|v l IH]; simpl.
    + split; [lia|discriminate].
    + destruct (py_eq v x) eqn:E.
      * rewrite filter_cons_True by exact E. simpl. split; [reflexivity|lia].
      * rewrite filter_cons_False by (rewrite E; discriminate). simpl. exact IH.
  - unfold Sequence_count, __iter__. intros ->. reflexivity.
  - unfold Sequence_count, __iter__. intros v ->.
    destruct (py_eq v x) eqn:E.
    + rewrite filter_cons_True by exact E. reflexivity.
    + rewrite filter_cons_False by (rewrite E; discriminate). reflexivity.
  - unfold Sequence_count, __iter__. intros r1 r2 ->.
    rewrite filter_app, length_app. lia.
Qed.

Lemma count_occurrences_witness :
  Sequence_count (MkRow Examples.meta_id_id [VInt 7; VInt 7; VInt 7] ∅ KEY_OBJECTS_ONLY)
    (VInt 7) = 3.
Proof.
  rewrite (proj2 (proj2 (proj2 (proj2
             (count_occurrences
                (MkRow Examples.meta_id_id [VInt 7; VInt 7; VInt 7] ∅ KEY_OBJECTS_ONLY)
                (VInt 7)))))
             (MkRow Examples.meta_id_id [VInt 7] ∅ KEY_OBJECTS_ONLY)
             (MkRow Examples.meta_id_id [VInt 7; VInt 7] ∅ KEY_OBJECTS_ONLY) eq_refl).
  rewrite (proj2 (proj2 (proj2 (proj2
             (count_occurrences
                (MkRow Examples.meta_id_id [VInt 7; VInt 7] ∅ KEY_OBJECTS_ONLY)
                (VInt 7)))))
             (MkRow Examples.meta_id_id [VInt 7] ∅ KEY_OBJECTS_ONLY)
             (MkRow Examples.meta_id_id [VInt 7] ∅ KEY_OBJECTS_ONLY) eq_refl).
  rewrite (proj1 (proj2 (proj2 (proj2
             (count_occurrences
                (MkRow Examples.meta_id_id [VInt 7] ∅ KEY_OBJECTS_ONLY)
                (VInt 7)))))
             (VInt 7) eq_refl).
  reflexivity.
Defined.

(** ** Slices *)








